(** * OSG Flocking report: query construction, flattening and assembly

    A shallow embedding of [src/reports/osg_reports/OSGFlockingReporter.py]
    (class [FlockingReport]: [query], [generate], [format_report]) and the
    properties its specification states about it.

    Python values are modelled as they occur in the report: strings (the
    keys of the buckets are text decoded from the response, held as the bytes
    of its UTF-8 encoding), unbounded integers and IEEE binary64 floats
    (Rocq's primitive floats).
    Dictionaries are [gmap]s; their iteration order is the (arbitrary but
    fixed) order of [map_to_list], as Python 2 leaves the order of
    [dict.iteritems] unspecified. *)

From Stdlib Require Import ZArith Ascii String.
From Stdlib Require Floats.
From stdpp Require Import gmap strings list fin_maps pretty.

Import PrimFloat.

Local Open Scope string_scope.
Local Open Scope Z_scope.

(** ** Python values and builtins *)

Module Py.

(** The values that end up in a report cell. *)
Inductive value :=
  | Str (s : string)
  | Int (z : Z)
  | Float (x : float).

(** The exceptions the modelled code can raise. *)
Inductive exn :=
  | KeyError (key : string)
  | TypeError
  | OverflowError
  | UnicodeEncodeError (text : string)
  | NoOptionError (section option : string)
  | ValueError (what : string).

(** Text.  The keys of the buckets are [unicode] objects, decoded from the
    response of the cluster; a [string] holds the bytes of the UTF-8 encoding
    of such a text, so that the text is ASCII exactly when every byte is
    below 128. *)
Fixpoint ascii_only (text : string) : bool :=
  match text with
  | EmptyString => true
  | String c text' => Nat.ltb (Ascii.nat_of_ascii c) 128 && ascii_only text'
  end.

(** [str(u)] for a [unicode] object, which is how a byte-string template
    formats it: the ASCII codec, and [UnicodeEncodeError] on any other
    character. *)
Definition encode_ascii (text : string) : exn + string :=
  if ascii_only text then inr text else inl (UnicodeEncodeError text).

(** [float(z)] for a Python integer: rounding to nearest even, and
    [OverflowError] when the integer is too large for a double. *)
Definition float_of_int (z : Z) : exn + float :=
  let x := FloatOps.SF2Prim
             (SpecFloat.binary_normalize FloatOps.prec FloatOps.emax z 0 false) in
  if PrimFloat.eqb (PrimFloat.abs x) PrimFloat.infinity then inl OverflowError
  else inr x.

(** The [+] of Python on the values above: integers add exactly, a mixed
    pair is added as floats, strings concatenate, and a string with a
    number is a [TypeError]. *)
Definition add (a b : value) : exn + value :=
  match a, b with
  | Int x, Int y => inr (Int (x + y))
  | Float x, Float y => inr (Float (PrimFloat.add x y))
  | Int x, Float y =>
      match float_of_int x with
      | inl e => inl e
      | inr x' => inr (Float (PrimFloat.add x' y))
      end
  | Float x, Int y =>
      match float_of_int y with
      | inl e => inl e
      | inr y' => inr (Float (PrimFloat.add x y'))
      end
  | Str x, Str y => inr (Str (x ++ y))
  | _, _ => inl TypeError
  end.

(** The builtin [sum(iterable)]: a left fold of [+] that starts from the
    integer [0]; the first failing addition is raised. *)
Fixpoint sum_from (acc : value) (l : list value) : exn + value :=
  match l with
  | [] => inr acc
  | x :: l' =>
      match add acc x with
      | inl e => inl e
      | inr acc' => sum_from acc' l'
      end
  end.

Definition sum (l : list value) : exn + value := sum_from (Int 0) l.

(** [dict(pairs)]: pairs are inserted from left to right, so that a later
    pair overrides an earlier one with the same key. *)
Definition dict {V} (pairs : list (string * V)) : gmap string V :=
  fold_left (fun m p => <[p.1 := p.2]> m) pairs ∅.

(** [zip(xs, ys)], as long as the shorter argument. *)
Fixpoint zip {A B} (xs : list A) (ys : list B) : list (A * B) :=
  match xs, ys with
  | x :: xs', y :: ys' => (x, y) :: zip xs' ys'
  | _, _ => []
  end.

(** [d.iteritems()]: the items of a dictionary in its iteration order. *)
Definition iteritems {V} (d : gmap string V) : list (string * V) :=
  map_to_list d.

(** [re.split(',', s)] for the literal pattern [','] used by the report:
    the string is cut at every comma, and the (possibly empty) pieces
    between the commas are returned in order. *)
Fixpoint split_comma (s : string) : list string :=
  match s with
  | EmptyString => [EmptyString]
  | String c s' =>
      if Ascii.eqb c ","%char then EmptyString :: split_comma s'
      else match split_comma s' with
           | piece :: pieces => String c piece :: pieces
           | [] => [String c EmptyString]
           end
  end.

(** [str.lower] on ASCII letters. *)
Definition lower_ascii (c : ascii) : ascii :=
  let n := Ascii.nat_of_ascii c in
  if (Nat.leb 65 n && Nat.leb n 90)%bool then Ascii.ascii_of_nat (n + 32) else c.

Fixpoint lower (s : string) : string :=
  match s with
  | EmptyString => EmptyString
  | String c s' => String (lower_ascii c) (lower s')
  end.

End Py.

(** ** The aggregation result

    [run_query] returns the response of the search cluster.  The report reads
    four nested levels of buckets from it, each bucket with its [key]; the
    innermost bucket carries the value of the [CoreHours_sum] metric. *)

Record ProjectBucket := {
  project_key : string;
  CoreHours_sum_value : float
}.

Record ProbeBucket := {
  probe_key : string;
  group_ProjectName_buckets : list ProjectBucket
}.

Record VOBucket := {
  vo_key : string;
  group_ProbeName_buckets : list ProbeBucket
}.

Record SiteBucket := {
  site_key : string;
  group_VOName_buckets : list VOBucket
}.

Record Results := {
  group_Site_buckets : list SiteBucket
}.

(** A row of raw data, as [generate] yields it. *)
Abbreviation FlatRecord := (string * string * string * string * float)%type.

(** ** [FlockingReport.generate]

    The sequence of rows a complete iteration over [self.generate()] sees:
    the four nested [for] loops, with the [yield] in the innermost one. *)
Definition generate (results : Results) : list FlatRecord :=
  site ← group_Site_buckets results;
  let sitekey := site_key site in
  vo ← group_VOName_buckets site;
  let vokey := vo_key vo in
  probe ← group_ProbeName_buckets vo;
  let probekey := probe_key probe in
  let projects := group_ProjectName_buckets probe in
  project ← projects;
  [(sitekey, vokey, probekey, project_key project, CoreHours_sum_value project)].

(** *** The generator object

    [self.generate()] returns a generator: a suspended frame that runs up to
    the next [yield] on every [next()].  The frame holds the iterators of the
    four loops (what is left of each bucket list) and the keys bound so
    far. *)
Record gen_frame := {
  it_site : list SiteBucket;
  sitekey : string;
  it_vo : list VOBucket;
  vokey : string;
  it_probe : list ProbeBucket;
  probekey : string;
  it_project : list ProjectBucket
}.

(** The frame of a generator that has not run yet: only the outermost loop
    has something to iterate over. *)
Definition gen_start (results : Results) : gen_frame :=
  {| it_site := group_Site_buckets results; sitekey := "";
     it_vo := []; vokey := ""; it_probe := []; probekey := "";
     it_project := [] |}.

(** Entering the next probe bucket that has a project bucket. *)
Fixpoint enter_probe (probes : list ProbeBucket)
  : option (string * ProjectBucket * list ProjectBucket * list ProbeBucket) :=
  match probes with
  | [] => None
  | probe :: probes' =>
      match group_ProjectName_buckets probe with
      | project :: projects => Some (probe_key probe, project, projects, probes')
      | [] => enter_probe probes'
      end
  end.

(** Entering the next VO bucket in which a probe bucket can be entered. *)
Fixpoint enter_vo (vos : list VOBucket)
  : option (string * (string * ProjectBucket * list ProjectBucket * list ProbeBucket)
            * list VOBucket) :=
  match vos with
  | [] => None
  | vo :: vos' =>
      match enter_probe (group_ProbeName_buckets vo) with
      | Some inner => Some (vo_key vo, inner, vos')
      | None => enter_vo vos'
      end
  end.

(** Entering the next site bucket in which a VO bucket can be entered. *)
Fixpoint enter_site (sites : list SiteBucket)
  : option (string
            * (string * (string * ProjectBucket * list ProjectBucket * list ProbeBucket)
               * list VOBucket)
            * list SiteBucket) :=
  match sites with
  | [] => None
  | site :: sites' =>
      match enter_vo (group_VOName_buckets site) with
      | Some inner => Some (site_key site, inner, sites')
      | None => enter_site sites'
      end
  end.

(** [next(g)]: resume the frame up to the next [yield].  The innermost loop
    that still has a bucket continues; an exhausted loop falls back to the
    loop around it.  [None] is [StopIteration]. *)
Definition gen_resume (f : gen_frame) : option (FlatRecord * gen_frame) :=
  match it_project f with
  | project :: projects =>
      Some ((sitekey f, vokey f, probekey f,
             project_key project, CoreHours_sum_value project),
            {| it_site := it_site f; sitekey := sitekey f;
               it_vo := it_vo f; vokey := vokey f;
               it_probe := it_probe f; probekey := probekey f;
               it_project := projects |})
  | [] =>
      match enter_probe (it_probe f) with
      | Some (pk, project, projects, probes) =>
          Some ((sitekey f, vokey f, pk,
                 project_key project, CoreHours_sum_value project),
                {| it_site := it_site f; sitekey := sitekey f;
                   it_vo := it_vo f; vokey := vokey f;
                   it_probe := probes; probekey := pk;
                   it_project := projects |})
      | None =>
          match enter_vo (it_vo f) with
          | Some (vk, (pk, project, projects, probes), vos) =>
              Some ((sitekey f, vk, pk,
                     project_key project, CoreHours_sum_value project),
                    {| it_site := it_site f; sitekey := sitekey f;
                       it_vo := vos; vokey := vk;
                       it_probe := probes; probekey := pk;
                       it_project := projects |})
          | None =>
              match enter_site (it_site f) with
              | Some (sk, (vk, (pk, project, projects, probes), vos), sites) =>
                  Some ((sk, vk, pk,
                         project_key project, CoreHours_sum_value project),
                        {| it_site := sites; sitekey := sk;
                           it_vo := vos; vokey := vk;
                           it_probe := probes; probekey := pk;
                           it_project := projects |})
              | None => None
              end
          end
      end
  end.

(** Generator objects live in the interpreter's heap, addressed by identity;
    a finished generator stays finished. *)
Inductive gen_state :=
  | Suspended (f : gen_frame)
  | Finished.

Abbreviation heap := (gmap nat gen_state).

(** Calling [self.generate()] allocates a new generator over the response
    of [run_query]. *)
Definition call_generate (results : Results) (h : heap) : nat * heap :=
  let g := fresh (dom h) in
  (g, <[g := Suspended (gen_start results)]> h).

(** [next(g)] on the heap; the outer [None] is a dangling reference. *)
Definition gen_next (g : nat) (h : heap) : option (option FlatRecord * heap) :=
  match h !! g with
  | None => None
  | Some Finished => Some (None, h)
  | Some (Suspended f) =>
      match gen_resume f with
      | Some (r, f') => Some (Some r, <[g := Suspended f']> h)
      | None => Some (None, <[g := Finished]> h)
      end
  end.

(** [for r in g: ...] collecting the rows: [next] is called until it raises
    [StopIteration].  The loop is cut after [fuel] rounds ([None]). *)
Fixpoint gen_drain (fuel : nat) (g : nat) (h : heap)
  : option (list FlatRecord * heap) :=
  match fuel with
  | O => None
  | S fuel' =>
      match gen_next g h with
      | None => None
      | Some (None, h') => Some ([], h')
      | Some (Some r, h') =>
          match gen_drain fuel' g h' with
          | Some (rs, h'') => Some (r :: rs, h'')
          | None => None
          end
      end
  end.

(** ** Output and exceptions

    The methods print to standard output, write to the report's logger and
    may raise.  A computation returns what it wrote, in order, and either
    the exception raised or its result. *)

Inductive output :=
  | Stdout (line : string)
  | LogInfo (message : string).

Definition M (A : Type) : Type := list output * (Py.exn + A).

Definition print (line : string) : M unit := ([Stdout line], inr tt).

Definition logger_info (message : string) : M unit := ([LogInfo message], inr tt).

Definition lift {A} (r : Py.exn + A) : M A := ([], r).

#[global] Instance M_ret : MRet M := fun A (a : A) => ([], inr a).

(** Sequencing: an exception ends the computation, keeping what was written
    before it. *)
#[global] Instance M_bind : MBind M := fun A B (k : A -> M B) (m : M A) =>
  match m with
  | (out, inl e) => (out, inl e)
  | (out, inr a) => let '(out', r) := k a in ((out ++ out')%list, r)
  end.

(** Python's [if c: stmt] around a statement that returns nothing. *)
Definition when (c : bool) (m : M unit) : M unit := if c then m else mret tt.

(** What a computation returned, and what it wrote. *)
Definition outcome {A} (m : M A) : Py.exn + A := m.2.
Definition written {A} (m : M A) : list output := m.1.

(** ** The search request (elasticsearch_dsl)

    The part of the [Search] object the report builds: the clauses added by
    [filter], the slice, and the tree of aggregations.  An aggregation is
    reached from the search through the names on the way to it; [bucket] and
    [metric] add a child to the aggregation they are called on, inside the
    search that holds it. *)

Module ES.

Inductive Filter :=
  | Range (field : string) (bounds : gmap string string)
  | Terms (field : string) (values : list string)
  | Term (field : string) (value : string).

Record AggParams := {
  agg_type : string;
  field : string;
  missing : option string;
  size : option Z
}.

#[warnings="-register-all"]
Inductive Agg :=
  | MkAgg (name : string) (params : AggParams) (children : list Agg).

Record Search := {
  using_ : string;
  index : string;
  filters : list Filter;
  extra_from : option Z;
  extra_size : option Z;
  aggs : list Agg
}.

(** [Search(using=..., index=...)] *)
Definition new (client indexpattern : string) : Search :=
  {| using_ := client; index := indexpattern; filters := [];
     extra_from := None; extra_size := None; aggs := [] |}.

(** [s.filter(...)]: one more clause, all of which must match. *)
Definition filter (f : Filter) (s : Search) : Search :=
  {| using_ := using_ s; index := index s; filters := (filters s ++ [f])%list;
     extra_from := extra_from s; extra_size := extra_size s; aggs := aggs s |}.

(** [s[start:stop]] *)
Definition slice (start stop : Z) (s : Search) : Search :=
  {| using_ := using_ s; index := index s; filters := filters s;
     extra_from := Some start; extra_size := Some (stop - start);
     aggs := aggs s |}.

Definition agg_name (a : Agg) : string :=
  match a with MkAgg name _ _ => name end.

(** [d[name] = a] in the dictionary of named aggregations [d], where [name]
    is the name of [a]. *)
Fixpoint set_agg (a : Agg) (d : list Agg) : list Agg :=
  match d with
  | [] => [a]
  | b :: d' =>
      if String.eqb (agg_name b) (agg_name a) then a :: d' else b :: set_agg a d'
  end.

(** Adding the aggregation [a] to the aggregation at [path]. *)
Fixpoint add_agg (path : list string) (a : Agg) (d : list Agg) : list Agg :=
  match path with
  | [] => set_agg a d
  | p :: path' =>
      map (fun '(MkAgg n params children) =>
             if String.eqb n p
             then MkAgg n params (add_agg path' a children)
             else MkAgg n params children) d
  end.

(** [x.bucket(name, ...)] on the aggregation (or the search, for the empty
    path) at [path]: returns the new aggregation, for chaining. *)
Definition bucket (path : list string) (name : string) (params : AggParams)
    (s : Search) : Search * list string :=
  ({| using_ := using_ s; index := index s; filters := filters s;
      extra_from := extra_from s; extra_size := extra_size s;
      aggs := add_agg path (MkAgg name params []) (aggs s) |},
   (path ++ [name])%list).

(** [x.metric(name, ...)]: adds the metric and returns [x] itself. *)
Definition metric (path : list string) (name : string) (params : AggParams)
    (s : Search) : Search * list string :=
  ({| using_ := using_ s; index := index s; filters := filters s;
      extra_from := extra_from s; extra_size := extra_size s;
      aggs := add_agg path (MkAgg name params []) (aggs s) |},
   path).

End ES.

(** ** The report object *)

Definition MAXINT : Z := 2 ^ 31 - 1.

Record FlockingReport := {
  config : string -> string -> Py.exn + string;
  client : string;
  indexpattern : string;
  report_type : string;
  start_time : string;
  end_time : string;
  verbose : bool;
  no_email : bool;
  is_test : bool;
  header : list string
}.

(** [FlockingReport.__init__]; [client] and [indexpattern] are what
    [Reporter.__init__] derives from the configuration. *)
Definition FlockingReport_init (config : string -> string -> Py.exn + string)
    (client indexpattern start end_ : string)
    (verbose is_test no_email : bool) : FlockingReport :=
  let report := "Flocking" in
  {| config := config; client := client; indexpattern := indexpattern;
     report_type := report; start_time := start; end_time := end_;
     verbose := verbose; no_email := no_email; is_test := is_test;
     header := ["VOName"; "SiteName"; "ProbeName"; "ProjectName";
                "Wall Hours"] |}.

(** A report: the cells of every column, by column name. *)
Abbreviation Report := (gmap string (list Py.value)).

Definition tab : string := String (Ascii.ascii_of_nat 9) EmptyString.

Section Methods.

(** How Python formats a float ([str.format] with an empty format
    specification), and [Reporter.dateparse_to_iso], which [query] calls and
    which raises on a time it cannot parse. *)
Variable float_str : float -> string.
Variable dateparse_to_iso : string -> Py.exn + string.

(** ["{0}".format(v)] for the total, which is an integer or a float
    ([sum] never returns a string). *)
Definition format_value (v : Py.value) : string :=
  match v with
  | Py.Str s => s
  | Py.Int z => pretty z
  | Py.Float x => float_str x
  end.

(** ** [FlockingReport.query] *)
Definition query (self : FlockingReport) : M ES.Search :=
  starttimeq ← lift (dateparse_to_iso (start_time self));
  endtimeq ← lift (dateparse_to_iso (end_time self));
  when (verbose self) (logger_info (indexpattern self));;
  probes ← lift (config self (Py.lower (report_type self) ++ "_report")
                             "flocking_probe_list");
  let probeslist := Py.split_comma probes in
  let s :=
    ES.slice 0 0
      (ES.filter (ES.Term "ResourceType" "Payload")
         (ES.filter (ES.Terms "ProbeName" probeslist)
            (ES.filter (ES.Range "EndTime"
                          (<["gte" := starttimeq]> (<["lt" := endtimeq]> ∅)))
               (ES.new (client self) (indexpattern self))))) in
  let '(s, b) :=
    ES.bucket [] "group_Site"
      {| ES.agg_type := "terms"; ES.field := "SiteName";
         ES.missing := None; ES.size := Some MAXINT |} s in
  let '(s, b) :=
    ES.bucket b "group_VOName"
      {| ES.agg_type := "terms"; ES.field := "ReportableVOName";
         ES.missing := None; ES.size := Some MAXINT |} s in
  let '(s, b) :=
    ES.bucket b "group_ProbeName"
      {| ES.agg_type := "terms"; ES.field := "ProbeName";
         ES.missing := None; ES.size := Some MAXINT |} s in
  let '(s, Bucket) :=
    ES.bucket b "group_ProjectName"
      {| ES.agg_type := "terms"; ES.field := "ProjectName";
         ES.missing := Some "N/A"; ES.size := Some MAXINT |} s in
  let '(s, _) :=
    ES.metric Bucket "CoreHours_sum"
      {| ES.agg_type := "sum"; ES.field := "CoreHours";
         ES.missing := None; ES.size := None |} s in
  mret s.

(** ** [FlockingReport.format_report] *)

(** The values of a row, in the order of the tuple. *)
Definition tuple_values (result_tuple : FlatRecord) : list Py.value :=
  let '(site, vo, probe, project, hours) := result_tuple in
  [Py.Str site; Py.Str vo; Py.Str probe; Py.Str project; Py.Float hours].

(** The line printed for a row: the byte-string template with the four
    keys and the hours, separated by tabs.  The fields are formatted from
    left to right, and a key that is not ASCII raises. *)
Definition format_row (result_tuple : FlatRecord) : Py.exn + string :=
  let '(site, vo, probe, project, hours) := result_tuple in
  match Py.encode_ascii site with
  | inl e => inl e
  | inr site' =>
      match Py.encode_ascii vo with
      | inl e => inl e
      | inr vo' =>
          match Py.encode_ascii probe with
          | inl e => inl e
          | inr probe' =>
              match Py.encode_ascii project with
              | inl e => inl e
              | inr project' =>
                  inr (site' ++ tab ++ vo' ++ tab ++ probe' ++ tab ++ project'
                         ++ tab ++ float_str hours)%string
              end
          end
      end
  end.

(** The first loop: every name of the header gets an empty column, unless it
    has one already. *)
Definition init_columns (header : list string) : Report :=
  fold_left (fun (report : Report) name =>
               match report !! name with
               | None => <[name := []]> report
               | Some _ => report
               end) header ∅.

(** [report[key].append(item)] *)
Definition append_cell (report : Report) (key : string) (item : Py.value)
  : Py.exn + Report :=
  match report !! key with
  | None => inl (Py.KeyError key)
  | Some column => inr (<[key := (column ++ [item])%list]> report)
  end.

(** [for key, item in items: report[key].append(item)] *)
Fixpoint append_items (items : list (string * Py.value)) (report : Report)
  : Py.exn + Report :=
  match items with
  | [] => inr report
  | (key, item) :: items' =>
      match append_cell report key item with
      | inl e => inl e
      | inr report' => append_items items' report'
      end
  end.

(** The body of the loop over the rows of [generate]. *)
Definition add_row (self : FlockingReport) (report : Report)
    (result_tuple : FlatRecord) : M Report :=
  when (verbose self) (line ← lift (format_row result_tuple); print line);;
  let mapdict := Py.dict (Py.zip (header self) (tuple_values result_tuple)) in
  lift (append_items (Py.iteritems mapdict) report).

Fixpoint add_rows (self : FlockingReport) (report : Report)
    (rows : list FlatRecord) : M Report :=
  match rows with
  | [] => mret report
  | result_tuple :: rows' =>
      report' ← add_row self report result_tuple;
      add_rows self report' rows'
  end.

(** The cell of the total row in the column [col]. *)
Definition total_cell (col : string) (tot : Py.value) : Py.value :=
  if String.eqb col "VOName" then Py.Str "Total"
  else if String.eqb col "Wall Hours" then tot
  else Py.Str "".

(** The last loop: one cell of the total row for every name of the header. *)
Fixpoint append_total (cols : list string) (tot : Py.value) (report : Report)
  : Py.exn + Report :=
  match cols with
  | [] => inr report
  | col :: cols' =>
      match append_cell report col (total_cell col tot) with
      | inl e => inl e
      | inr report' => append_total cols' tot report'
      end
  end.

(** [report['Wall Hours']] *)
Definition getitem (report : Report) (key : string) : Py.exn + list Py.value :=
  match report !! key with
  | None => inl (Py.KeyError key)
  | Some column => inr column
  end.

(** The body of [format_report], over the rows [rows] that the loop reads
    from the generator. *)
Definition format_report_from (self : FlockingReport) (rows : list FlatRecord)
  : M Report :=
  let report := init_columns (header self) in
  report ← add_rows self report rows;
  column ← lift (getitem report "Wall Hours");
  tot ← lift (Py.sum column);
  report ← lift (append_total (header self) tot report);
  when (verbose self)
    (print ("The total Wall hours in this report are " ++ format_value tot));;
  mret report.

(** The rows come from the generator [self.generate()] over the response
    [results] of [run_query], iterated to its end. *)
Definition format_report (self : FlockingReport) (results : Results)
  : M Report :=
  format_report_from self (generate results).

End Methods.

(** The rows of a report, read across the columns [cols]: row [i] holds
    cell [i] of every column.  [None] when a column is missing or shorter
    than [n] cells. *)
Definition report_row (report : Report) (cols : list string) (i : nat)
  : option (list Py.value) :=
  mapM (fun col => column ← report !! col; column !! i) cols.

Definition report_rows (report : Report) (cols : list string) (n : nat)
  : option (list (list Py.value)) :=
  mapM (report_row report cols) (seq 0 n).

(** ** Notions used to state the properties *)

(** The cells that the rows [rows] put at position [k] of a row, in the
    order of the rows. *)
Definition cells (k : nat) (rows : list FlatRecord) : list Py.value :=
  omap (fun result_tuple => tuple_values result_tuple !! k) rows.

(** The rows whose four keys are ASCII: those a verbose report can print. *)
Definition keys_ascii (result_tuple : FlatRecord) : bool :=
  let '(site, vo, probe, project, _) := result_tuple in
  Py.ascii_only site && Py.ascii_only vo && Py.ascii_only probe
  && Py.ascii_only project.

Definition all_ascii (rows : list FlatRecord) : bool := forallb keys_ascii rows.

(** The line of a row whose keys are ASCII. *)
Definition row_line (float_str : float -> string) (result_tuple : FlatRecord)
  : string :=
  let '(site, vo, probe, project, hours) := result_tuple in
  (site ++ tab ++ vo ++ tab ++ probe ++ tab ++ project ++ tab
     ++ float_str hours)%string.

(** The first row, if any, that a verbose report cannot print. *)
Definition first_unprintable (rows : list FlatRecord) : option FlatRecord :=
  find (fun result_tuple => negb (keys_ascii result_tuple)) rows.

(** The hours of a row, its last component. *)
Definition hours_of (result_tuple : FlatRecord) : float := result_tuple.2.

(** The sum of the hours of the rows, added from left to right, as Python
    returns it: the integer [0] when there is no row, a float otherwise. *)
Definition hours_total (rows : list FlatRecord) : Py.value :=
  match rows with
  | [] => Py.Int 0
  | _ :: _ => Py.Float (fold_left PrimFloat.add (map hours_of rows) 0%float)
  end.

(** The report with the five columns of the header. *)
Definition table (c0 c1 c2 c3 c4 : list Py.value) : Report :=
  <["VOName" := c0]> (<["SiteName" := c1]> (<["ProbeName" := c2]>
    (<["ProjectName" := c3]> (<["Wall Hours" := c4]> ∅)))).

(** The rows that one bucket of each level contributes, under the keys of
    the buckets around it. *)
Definition probe_rows (sitekey vokey : string) (probe : ProbeBucket)
  : list FlatRecord :=
  project ← group_ProjectName_buckets probe;
  [(sitekey, vokey, probe_key probe, project_key project,
    CoreHours_sum_value project)].

Definition vo_rows (sitekey : string) (vo : VOBucket) : list FlatRecord :=
  probe ← group_ProbeName_buckets vo; probe_rows sitekey (vo_key vo) probe.

Definition site_rows (site : SiteBucket) : list FlatRecord :=
  vo ← group_VOName_buckets site; vo_rows (site_key site) vo.

(** The number of innermost buckets of a response. *)
Definition probe_leaves (probe : ProbeBucket) : nat :=
  length (group_ProjectName_buckets probe).

Definition vo_leaves (vo : VOBucket) : nat :=
  sum_list_with probe_leaves (group_ProbeName_buckets vo).

Definition site_leaves (site : SiteBucket) : nat :=
  sum_list_with vo_leaves (group_VOName_buckets site).

Definition leaves (results : Results) : nat :=
  sum_list_with site_leaves (group_Site_buckets results).

(** The position, in a depth-first walk, of the project bucket [l] of the
    probe bucket [k] of the VO bucket [j] of the site bucket [i]: the number
    of innermost buckets that come before it. *)
Definition rank (results : Results) (i j k l : nat) : nat :=
  let sites := group_Site_buckets results in
  let vos := default [] (group_VOName_buckets <$> sites !! i) in
  let probes := default [] (group_ProbeName_buckets <$> vos !! j) in
  (sum_list_with site_leaves (take i sites)
   + sum_list_with vo_leaves (take j vos)
   + sum_list_with probe_leaves (take k probes)
   + l)%nat.

(** The rows a suspended generator has yet to yield: what is left of the
    four loops, innermost first. *)
Definition frame_rows (f : gen_frame) : list FlatRecord :=
  (map (fun project => (sitekey f, vokey f, probekey f, project_key project,
                       CoreHours_sum_value project)) (it_project f)
  ++ (it_probe f ≫= probe_rows (sitekey f) (vokey f))
  ++ (it_vo f ≫= vo_rows (sitekey f))
  ++ (it_site f ≫= site_rows))%list.

(** The pieces of [re.split] joined again with commas. *)
Fixpoint join_comma (pieces : list string) : string :=
  match pieces with
  | [] => EmptyString
  | [piece] => piece
  | piece :: pieces' => (piece ++ "," ++ join_comma pieces')%string
  end.

(** The number of commas of a string. *)
Fixpoint count_commas (s : string) : nat :=
  match s with
  | EmptyString => 0
  | String c s' => ((if Ascii.eqb c ","%char then 1 else 0) + count_commas s')%nat
  end.

(** A string without a comma. *)
Fixpoint comma_free (s : string) : bool :=
  match s with
  | EmptyString => true
  | String c s' => negb (Ascii.eqb c ","%char) && comma_free s'
  end.

(** The responses of the scenarios of the specification. *)
Definition end_to_end_tree : Results :=
  {| group_Site_buckets :=
       [ {| site_key := "A";
            group_VOName_buckets :=
              [ {| vo_key := "VO1";
                   group_ProbeName_buckets :=
                     [ {| probe_key := "P1";
                          group_ProjectName_buckets :=
                            [ {| project_key := "Proj1";
                                 CoreHours_sum_value := 10%float |};
                              {| project_key := "Proj2";
                                 CoreHours_sum_value := 5%float |} ] |} ] |} ] |} ] |}.

(** A response with a project whose name is not ASCII: "Caf" followed by
    the letter e with an acute accent (U+00E9), two bytes in UTF-8. *)
Definition cafe : string :=
  ("Caf" ++ String (Ascii.ascii_of_nat 195)
              (String (Ascii.ascii_of_nat 169) EmptyString))%string.

Definition non_ascii_tree : Results :=
  {| group_Site_buckets :=
       [ {| site_key := "A";
            group_VOName_buckets :=
              [ {| vo_key := "VO1";
                   group_ProbeName_buckets :=
                     [ {| probe_key := "P1";
                          group_ProjectName_buckets :=
                            [ {| project_key := cafe;
                                 CoreHours_sum_value := 10%float |} ] |} ] |} ] |} ] |}.

Definition order_tree : Results :=
  {| group_Site_buckets :=
       [ {| site_key := "S1";
            group_VOName_buckets :=
              [ {| vo_key := "V1";
                   group_ProbeName_buckets :=
                     [ {| probe_key := "P1";
                          group_ProjectName_buckets :=
                            [ {| project_key := "Pr1";
                                 CoreHours_sum_value := 5%float |} ] |} ] |} ] |} ] |}.

(** The request the specification describes, for a time window from
    [starttimeq] (included) to [endtimeq] (excluded) and the probes
    [probeslist]: three filters, no hits, and four nested [terms]
    aggregations, each with room for [2^31 - 1] buckets, around the sum of
    [CoreHours]. *)
Definition terms_agg (name field : string) (missing : option string)
    (children : list ES.Agg) : ES.Agg :=
  ES.MkAgg name
    {| ES.agg_type := "terms"; ES.field := field; ES.missing := missing;
       ES.size := Some (2 ^ 31 - 1) |} children.

Definition sum_agg (name field : string) : ES.Agg :=
  ES.MkAgg name
    {| ES.agg_type := "sum"; ES.field := field; ES.missing := None;
       ES.size := None |} [].

Definition flocking_request (client indexpattern starttimeq endtimeq : string)
    (probeslist : list string) : ES.Search :=
  {| ES.using_ := client;
     ES.index := indexpattern;
     ES.filters :=
       [ES.Range "EndTime" (<["gte" := starttimeq]> (<["lt" := endtimeq]> ∅));
        ES.Terms "ProbeName" probeslist;
        ES.Term "ResourceType" "Payload"];
     ES.extra_from := Some 0;
     ES.extra_size := Some 0;
     ES.aggs :=
       [terms_agg "group_Site" "SiteName" None
          [terms_agg "group_VOName" "ReportableVOName" None
             [terms_agg "group_ProbeName" "ProbeName" None
                [terms_agg "group_ProjectName" "ProjectName" (Some "N/A")
                   [sum_agg "CoreHours_sum" "CoreHours"]]]]] |}.

(** The probes a request is restricted to. *)
Definition probes_of (s : ES.Search) : option (list string) :=
  match ES.filters s with
  | [_; ES.Terms "ProbeName" probeslist; _] => Some probeslist
  | _ => None
  end.

(** [n] calls of [next(g)] in a row, with what each of them returned
    ([None] for [StopIteration]). *)
Fixpoint gen_nexts (n : nat) (g : nat) (h : heap)
  : option (list (option FlatRecord) * heap) :=
  match n with
  | O => Some ([], h)
  | S n' =>
      match gen_next g h with
      | None => None
      | Some (r, h') =>
          match gen_nexts n' g h' with
          | Some (rs, h'') => Some (r :: rs, h'')
          | None => None
          end
      end
  end.

(** A response without the buckets that hold no innermost bucket. *)
Definition prune_vo (vo : VOBucket) : VOBucket :=
  {| vo_key := vo_key vo;
     group_ProbeName_buckets :=
       filter (fun probe => probe_leaves probe ≠ 0%nat)
              (group_ProbeName_buckets vo) |}.

Definition prune_site (site : SiteBucket) : SiteBucket :=
  {| site_key := site_key site;
     group_VOName_buckets :=
       filter (fun vo => vo_leaves vo ≠ 0%nat)
              (map prune_vo (group_VOName_buckets site)) |}.

Definition prune (results : Results) : Results :=
  {| group_Site_buckets :=
       filter (fun site => site_leaves site ≠ 0%nat)
              (map prune_site (group_Site_buckets results)) |}.

(** The row of totals that closes a report. *)
Definition total_row (tot : Py.value) : list Py.value :=
  [Py.Str "Total"; Py.Str ""; Py.Str ""; Py.Str ""; tot].

(** * Properties *)

Local Open Scope list_scope.

(** ** The monad *)

Section MonadFacts.
Context {A B : Type}.

(** The outcome of a sequence depends only on the outcomes of its parts,
    not on what they write. *)
Lemma outcome_bind_ext (m1 m2 : M A) (k1 k2 : A -> M B) :
  outcome m1 = outcome m2 ->
  (forall a, outcome (k1 a) = outcome (k2 a)) ->
  outcome (m1 ≫= k1) = outcome (m2 ≫= k2).
Proof.
  destruct m1 as [out1 [e1|a1]], m2 as [out2 [e2|a2]]; simpl;
    intros [=] Hk; subst; [done|].
  specialize (Hk a2). unfold mbind, M_bind, outcome in *. simpl.
  by destruct (k1 a2), (k2 a2).
Qed.

Lemma outcome_when_print (c : bool) (line : string) (k : unit -> M B) :
  outcome (when c (print line) ≫= k) = outcome (k tt).
Proof.
  unfold mbind, M_bind, outcome. by destruct c; simpl; destruct (k tt).
Qed.

End MonadFacts.

(** ** Appending to the columns of a report *)

Lemma append_items_lookup (items : list (string * Py.value)) (report : Report) :
  NoDup items.*1 ->
  (forall key, key ∈ items.*1 -> is_Some (report !! key)) ->
  exists report' : Report,
    append_items items report = inr report' /\
    forall key,
      report' !! key
      = (fun column => column ++ option_list ((list_to_map items : gmap string Py.value) !! key))
          <$> report !! key.
Proof.
  revert report. induction items as [|[key item] items IH]; intros report Hnd Hin.
  - exists report. split; [done|]. intros key. simpl. rewrite lookup_empty. simpl.
    destruct (report !! key); simpl; [by rewrite app_nil_r|done].
  - simpl in Hnd. apply NoDup_cons in Hnd as [Hfresh Hnd].
    destruct (Hin key) as [column Hcol]; [simpl; left|].
    simpl. unfold append_cell. rewrite Hcol.
    destruct (IH (<[key := column ++ [item]]> report) Hnd) as (report' & Hrun & Hlook).
    { intros key' Hkey'. destruct (decide (key = key')) as [->|Hne].
      - rewrite lookup_insert_eq. eauto.
      - rewrite lookup_insert_ne by done. apply Hin. simpl. by right. }
    exists report'. split; [done|]. intros key'. rewrite Hlook.
    destruct (decide (key = key')) as [<-|Hne].
    + rewrite !lookup_insert_eq, Hcol. simpl.
      rewrite (not_elem_of_list_to_map_1 (M := gmap string) items key Hfresh). simpl.
      by rewrite app_nil_r.
    + by rewrite !lookup_insert_ne.
Qed.

Lemma append_total_items (cols : list string) (tot : Py.value) (report : Report) :
  append_total cols tot report
  = append_items (map (fun col => (col, total_cell col tot)) cols) report.
Proof.
  revert report. induction cols as [|col cols IH]; intros report; simpl; [done|].
  destruct (append_cell report col (total_cell col tot)); [done|apply IH].
Qed.

Lemma table_lookup (c0 c1 c2 c3 c4 : list Py.value) (key : string) :
  table c0 c1 c2 c3 c4 !! key
  = if decide (key = "VOName") then Some c0
    else if decide (key = "SiteName") then Some c1
    else if decide (key = "ProbeName") then Some c2
    else if decide (key = "ProjectName") then Some c3
    else if decide (key = "Wall Hours") then Some c4
    else None.
Proof.
  unfold table. repeat case_decide; simplify_map_eq; done.
Qed.

(** Appending one cell to each column of a five-column report, in any
    order of the columns. *)
Lemma append_items_table (items : list (string * Py.value))
    (c0 c1 c2 c3 c4 : list Py.value) (v0 v1 v2 v3 v4 : Py.value) :
  NoDup items.*1 ->
  (list_to_map items : gmap string Py.value)
  = <["VOName" := v0]> (<["SiteName" := v1]> (<["ProbeName" := v2]>
      (<["ProjectName" := v3]> (<["Wall Hours" := v4]> ∅)))) ->
  append_items items (table c0 c1 c2 c3 c4)
  = inr (table (c0 ++ [v0]) (c1 ++ [v1]) (c2 ++ [v2]) (c3 ++ [v3]) (c4 ++ [v4])).
Proof.
  intros Hnd Hmap.
  destruct (append_items_lookup items (table c0 c1 c2 c3 c4) Hnd)
    as (report' & -> & Hlook).
  { intros key Hkey.
    assert (is_Some ((list_to_map items : gmap string Py.value) !! key)) as Hsome.
    { apply list_elem_of_fmap in Hkey as [[key' item] [-> Hkey]].
      exists item. by apply elem_of_list_to_map_1. }
    rewrite Hmap in Hsome. rewrite table_lookup.
    repeat case_decide; simplify_map_eq; eauto. }
  f_equal. apply map_eq. intros key. rewrite Hlook, Hmap, !table_lookup.
  repeat case_decide; simplify_map_eq; done.
Qed.

(** ** The sum of the hours *)

Lemma add_int0_float (h : float) :
  Py.add (Py.Int 0) (Py.Float h) = inr (Py.Float (PrimFloat.add 0 h)).
Proof. reflexivity. Qed.

Lemma cells_cons (k : nat) (r : FlatRecord) (rows : list FlatRecord) :
  cells k (r :: rows) = option_list (tuple_values r !! k) ++ cells k rows.
Proof. unfold cells. simpl. by destruct (tuple_values r !! k). Qed.

Lemma cells_app (k : nat) (rows rows' : list FlatRecord) :
  cells k (rows ++ rows') = cells k rows ++ cells k rows'.
Proof. apply omap_app. Qed.

Lemma cells_hours (rows : list FlatRecord) :
  cells 4 rows = map (fun r => Py.Float (hours_of r)) rows.
Proof.
  induction rows as [|[[[[site vo] probe] project] hours] rows IH]; [done|].
  rewrite cells_cons, IH. done.
Qed.

Lemma cells_length (k : nat) (rows : list FlatRecord) :
  (k < 5)%nat -> length (cells k rows) = length rows.
Proof.
  intros Hk. induction rows as [|[[[[site vo] probe] project] hours] rows IH]; [done|].
  rewrite cells_cons, length_app, IH.
  do 5 (destruct k as [|k]; [done|]). lia.
Qed.

Lemma sum_from_floats (a : float) (hs : list float) :
  Py.sum_from (Py.Float a) (map Py.Float hs)
  = inr (Py.Float (fold_left PrimFloat.add hs a)).
Proof. revert a. induction hs as [|h hs IH]; intros a; simpl; [done|apply IH]. Qed.

Lemma sum_from_number (acc : Py.value) (l : list Py.value) (v : Py.value) :
  (forall s, acc ≠ Py.Str s) -> Py.sum_from acc l = inr v ->
  forall s, v ≠ Py.Str s.
Proof.
  revert acc. induction l as [|x l IH]; intros acc Hacc; simpl.
  { by intros [= <-]. }
  destruct (Py.add acc x) as [e|acc'] eqn:Hadd; [done|].
  apply IH. intros s ->.
  destruct acc as [a|a|a], x as [b|b|b]; simpl in Hadd;
    try discriminate; try (by eapply Hacc);
    destruct (Py.float_of_int _); discriminate.
Qed.

(** The total that [format_report] prints is never a string. *)
Lemma sum_number (l : list Py.value) (v : Py.value) :
  Py.sum l = inr v -> forall s, v ≠ Py.Str s.
Proof. apply sum_from_number. done. Qed.

Lemma sum_hours (rows : list FlatRecord) :
  Py.sum (cells 4 rows) = inr (hours_total rows).
Proof.
  rewrite cells_hours. destruct rows as [|r rows]; [done|].
  unfold Py.sum. cbn [map Py.sum_from]. rewrite add_int0_float.
  rewrite <- (map_map hours_of Py.Float), sum_from_floats. done.
Qed.

(** ** Printing a row *)

Lemma format_row_ascii (float_str : float -> string) (r : FlatRecord) :
  keys_ascii r = true -> format_row float_str r = inr (row_line float_str r).
Proof.
  destruct r as [[[[site vo] probe] project] hours].
  unfold keys_ascii, format_row, Py.encode_ascii.
  intros [[[-> ->]%andb_true_iff ->]%andb_true_iff ->]%andb_true_iff. done.
Qed.

Lemma format_row_not_ascii (float_str : float -> string) (r : FlatRecord) :
  keys_ascii r = false ->
  exists text,
    format_row float_str r = inl (Py.UnicodeEncodeError text) /\
    Py.ascii_only text = false.
Proof.
  destruct r as [[[[site vo] probe] project] hours].
  unfold keys_ascii, format_row, Py.encode_ascii. intros Hkeys.
  destruct (Py.ascii_only site) eqn:Hsite; [|by eexists].
  destruct (Py.ascii_only vo) eqn:Hvo; [|by eexists].
  destruct (Py.ascii_only probe) eqn:Hprobe; [|by eexists].
  destruct (Py.ascii_only project) eqn:Hproject; [done|by eexists].
Qed.

(** A row is added after its line is printed, when the report is verbose
    and the line can be formatted. *)
Lemma add_row_eval (float_str : float -> string) (self : FlockingReport)
    (report : Report) (r : FlatRecord) :
  add_row float_str self report r
  = if verbose self
    then match format_row float_str r with
         | inl e => ([], inl e)
         | inr line =>
             ([Stdout line],
              append_items
                (Py.iteritems (Py.dict (Py.zip (header self) (tuple_values r))))
                report)
         end
    else ([],
          append_items
            (Py.iteritems (Py.dict (Py.zip (header self) (tuple_values r))))
            report).
Proof.
  unfold add_row. destruct (verbose self); [|done].
  by destruct (format_row float_str r).
Qed.

Lemma all_ascii_cons (r : FlatRecord) (rows : list FlatRecord) :
  all_ascii (r :: rows) = keys_ascii r && all_ascii rows.
Proof. done. Qed.

Lemma first_unprintable_none (rows : list FlatRecord) :
  first_unprintable rows = None <-> all_ascii rows = true.
Proof.
  unfold first_unprintable. induction rows as [|r rows IH]; [done|].
  rewrite all_ascii_cons. simpl. destruct (keys_ascii r); simpl; [exact IH|done].
Qed.

(** ** The loops of [format_report] *)

Section FormatReport.

Variable float_str : float -> string.

Variable self : FlockingReport.
Hypothesis self_header :
  header self = ["VOName"; "SiteName"; "ProbeName"; "ProjectName"; "Wall Hours"].

Lemma init_columns_header :
  init_columns (header self) = table [] [] [] [] [].
Proof. rewrite self_header. reflexivity. Qed.

Lemma append_row_table (c0 c1 c2 c3 c4 : list Py.value) (r : FlatRecord) :
  append_items (Py.iteritems (Py.dict (Py.zip (header self) (tuple_values r))))
    (table c0 c1 c2 c3 c4)
  = inr (table (c0 ++ cells 0 [r]) (c1 ++ cells 1 [r]) (c2 ++ cells 2 [r])
               (c3 ++ cells 3 [r]) (c4 ++ cells 4 [r])).
Proof.
  destruct r as [[[[site vo] probe] project] hours]. rewrite self_header.
  apply (append_items_table _ c0 c1 c2 c3 c4
           (Py.Str site) (Py.Str vo) (Py.Str probe) (Py.Str project)
           (Py.Float hours)).
  - apply NoDup_fst_map_to_list.
  - unfold Py.iteritems. rewrite list_to_map_to_list.
    apply map_eq. intros key. unfold Py.dict. simpl.
    repeat (rewrite lookup_insert; case_decide; simplify_eq; try done).
Qed.

Lemma add_row_table (c0 c1 c2 c3 c4 : list Py.value) (r : FlatRecord) :
  verbose self = false \/ keys_ascii r = true ->
  add_row float_str self (table c0 c1 c2 c3 c4) r
  = (if verbose self then [Stdout (row_line float_str r)] else [],
     inr (table (c0 ++ cells 0 [r]) (c1 ++ cells 1 [r]) (c2 ++ cells 2 [r])
                (c3 ++ cells 3 [r]) (c4 ++ cells 4 [r]))).
Proof.
  intros Hprint. rewrite add_row_eval, append_row_table.
  destruct Hprint as [->|Hkeys]; [done|].
  rewrite (format_row_ascii float_str r Hkeys). by destruct (verbose self).
Qed.

(** A verbose report stops at a row it cannot format, before the row is
    added. *)
Lemma add_row_unprintable (report : Report) (r : FlatRecord) :
  verbose self = true -> keys_ascii r = false ->
  exists text,
    add_row float_str self report r = ([], inl (Py.UnicodeEncodeError text)) /\
    format_row float_str r = inl (Py.UnicodeEncodeError text).
Proof.
  intros Hloud Hkeys.
  destruct (format_row_not_ascii float_str r Hkeys) as (text & Hrow & _).
  exists text. by rewrite add_row_eval, Hloud, Hrow.
Qed.

Lemma add_rows_table (c0 c1 c2 c3 c4 : list Py.value) (rows : list FlatRecord) :
  verbose self = false \/ all_ascii rows = true ->
  add_rows float_str self (table c0 c1 c2 c3 c4) rows
  = (if verbose self then map (fun r => Stdout (row_line float_str r)) rows
     else [],
     inr (table (c0 ++ cells 0 rows) (c1 ++ cells 1 rows) (c2 ++ cells 2 rows)
                (c3 ++ cells 3 rows) (c4 ++ cells 4 rows))).
Proof.
  revert c0 c1 c2 c3 c4.
  induction rows as [|r rows IH]; intros c0 c1 c2 c3 c4 Hprint.
  - simpl. unfold cells. simpl. rewrite !app_nil_r. by destruct (verbose self).
  - assert (verbose self = false \/ keys_ascii r = true) as Hr.
    { destruct Hprint as [?|[? _]%andb_true_iff]; [by left|by right]. }
    assert (verbose self = false \/ all_ascii rows = true) as Hrows.
    { destruct Hprint as [?|[_ ?]%andb_true_iff]; [by left|by right]. }
    cbn [add_rows]. rewrite (add_row_table _ _ _ _ _ r Hr).
    unfold mbind, M_bind. rewrite (IH _ _ _ _ _ Hrows).
    rewrite <- !app_assoc, <- !cells_app. simpl ([r] ++ rows).
    by destruct (verbose self).
Qed.

Lemma append_total_table (c0 c1 c2 c3 c4 : list Py.value) (tot : Py.value) :
  append_total (header self) tot (table c0 c1 c2 c3 c4)
  = inr (table (c0 ++ [Py.Str "Total"]) (c1 ++ [Py.Str ""]) (c2 ++ [Py.Str ""])
               (c3 ++ [Py.Str ""]) (c4 ++ [tot])).
Proof.
  rewrite append_total_items, self_header.
  apply append_items_table.
  - simpl. apply NoDup_ListNoDup. repeat constructor; simpl; intuition discriminate.
  - reflexivity.
Qed.

(** The closed form of [format_report]: what it prints and what it
    returns, for the rows it reads, when the report is quiet or every row
    can be printed. *)
Lemma format_report_table (rows : list FlatRecord) :
  verbose self = false \/ all_ascii rows = true ->
  format_report_from float_str self rows
  = (if verbose self
     then map (fun r => Stdout (row_line float_str r)) rows
          ++ [Stdout ("The total Wall hours in this report are "
                      ++ format_value float_str (hours_total rows))%string]
     else [],
     inr (table (cells 0 rows ++ [Py.Str "Total"]) (cells 1 rows ++ [Py.Str ""])
                (cells 2 rows ++ [Py.Str ""]) (cells 3 rows ++ [Py.Str ""])
                (cells 4 rows ++ [hours_total rows]))).
Proof.
  intros Hprint. unfold format_report_from.
  rewrite init_columns_header, (add_rows_table _ _ _ _ _ rows Hprint). simpl app.
  unfold mbind at 1, M_bind at 1.
  unfold getitem. rewrite table_lookup. simpl.
  rewrite sum_hours. simpl. rewrite append_total_table. simpl.
  by destruct (verbose self).
Qed.

End FormatReport.

(** ** The verbose flag

    Two report objects with the same header return the same report (or raise
    the same exception) on rows that can be printed, whatever their other
    attributes. *)

Section Verbose.

Variable float_str : float -> string.
Variables self1 self2 : FlockingReport.
Hypothesis same_header : header self1 = header self2.

Lemma add_row_outcome (report : Report) (r : FlatRecord) :
  keys_ascii r = true ->
  outcome (add_row float_str self1 report r)
  = outcome (add_row float_str self2 report r).
Proof.
  intros Hkeys.
  rewrite !add_row_eval, (format_row_ascii float_str r Hkeys), same_header.
  by destruct (verbose self1), (verbose self2).
Qed.

Lemma add_rows_outcome (report : Report) (rows : list FlatRecord) :
  all_ascii rows = true ->
  outcome (add_rows float_str self1 report rows)
  = outcome (add_rows float_str self2 report rows).
Proof.
  revert report.
  induction rows as [|r rows IH]; intros report Hrows; [done|].
  apply andb_true_iff in Hrows as [Hr Hrows].
  cbn [add_rows]. apply outcome_bind_ext; [by apply add_row_outcome|].
  intros report'. by apply IH.
Qed.

Lemma format_report_from_outcome (rows : list FlatRecord) :
  all_ascii rows = true ->
  outcome (format_report_from float_str self1 rows)
  = outcome (format_report_from float_str self2 rows).
Proof.
  intros Hrows. unfold format_report_from. rewrite same_header.
  apply outcome_bind_ext; [by apply add_rows_outcome|]. intros report.
  apply outcome_bind_ext; [done|]. intros column.
  apply outcome_bind_ext; [done|]. intros tot.
  apply outcome_bind_ext; [done|]. intros report'.
  by rewrite !outcome_when_print.
Qed.

End Verbose.

(** ** Reading a report by rows *)

Lemma table_row (c0 c1 c2 c3 c4 : list Py.value) (i : nat) :
  report_row (table c0 c1 c2 c3 c4)
    ["VOName"; "SiteName"; "ProbeName"; "ProjectName"; "Wall Hours"] i
  = (v0 ← c0 !! i; v1 ← c1 !! i; v2 ← c2 !! i; v3 ← c3 !! i; v4 ← c4 !! i;
     Some [v0; v1; v2; v3; v4]).
Proof.
  unfold report_row. cbn [mapM]. rewrite !table_lookup. simpl.
  destruct (c0 !! i), (c1 !! i), (c2 !! i), (c3 !! i), (c4 !! i); done.
Qed.

Lemma table_last_row (c0 c1 c2 c3 c4 : list Py.value) (v0 v1 v2 v3 v4 : Py.value)
    (n : nat) :
  length c0 = n -> length c1 = n -> length c2 = n -> length c3 = n ->
  length c4 = n ->
  report_row (table (c0 ++ [v0]) (c1 ++ [v1]) (c2 ++ [v2]) (c3 ++ [v3]) (c4 ++ [v4]))
    ["VOName"; "SiteName"; "ProbeName"; "ProjectName"; "Wall Hours"] n
  = Some [v0; v1; v2; v3; v4]
  /\ report_row (table (c0 ++ [v0]) (c1 ++ [v1]) (c2 ++ [v2]) (c3 ++ [v3]) (c4 ++ [v4]))
       ["VOName"; "SiteName"; "ProbeName"; "ProjectName"; "Wall Hours"] (S n)
     = None.
Proof.
  intros H0 H1 H2 H3 H4. rewrite !table_row. split.
  - rewrite !list_lookup_middle by done. reflexivity.
  - rewrite (lookup_ge_None_2 (c0 ++ [v0])); [reflexivity|].
    rewrite length_app. simpl. lia.
Qed.

(** ** The assembled report *)

Section Assembly.

Variable float_str : float -> string.
Variable config : string -> string -> Py.exn + string.
Variables client indexpattern start end_ : string.
Variables verbose is_test no_email : bool.

Local Abbreviation self :=
  (FlockingReport_init config client indexpattern start end_
     verbose is_test no_email).

Lemma self_header_eq :
  header self = ["VOName"; "SiteName"; "ProbeName"; "ProjectName"; "Wall Hours"].
Proof. reflexivity. Qed.

(** C2: the columns of the header start empty, and every row appends
    exactly one cell to every column: the value at position [k] of the tuple
    goes to the column at position [k] of the header, so that the first
    component of the tuple lands in "VOName", the second in "SiteName", and so
    on.  No other column appears.  This holds for a quiet report, and for a
    verbose one when the lines of the rows can be formatted (their keys are
    ASCII). *)
Theorem assembler_appends_by_position
    (rows : list FlatRecord) (site vo probe project : string) (hours : float) :
  verbose = false \/
    all_ascii ((site, vo, probe, project, hours) :: rows) = true ->
  (forall col, col ∈ header self -> init_columns (header self) !! col = Some []) /\
  exists report report' : Report,
    outcome (add_rows float_str self (init_columns (header self)) rows)
      = inr report /\
    outcome (add_row float_str self report (site, vo, probe, project, hours))
      = inr report' /\
    (forall k col, header self !! k = Some col ->
       exists v,
         tuple_values (site, vo, probe, project, hours) !! k = Some v /\
         report !! col = Some (cells k rows) /\
         report' !! col = Some (cells k rows ++ [v])) /\
    (forall col, col ∉ header self -> report' !! col = None) /\
    report' !! "VOName" = Some (cells 0 rows ++ [Py.Str site]) /\
    report' !! "SiteName" = Some (cells 1 rows ++ [Py.Str vo]) /\
    report' !! "ProbeName" = Some (cells 2 rows ++ [Py.Str probe]) /\
    report' !! "ProjectName" = Some (cells 3 rows ++ [Py.Str project]) /\
    report' !! "Wall Hours" = Some (cells 4 rows ++ [Py.Float hours]).
Proof.
  intros Hprint.
  assert (verbose = false \/
          keys_ascii (site, vo, probe, project, hours) = true) as Hrow.
  { destruct Hprint as [?|[? _]%andb_true_iff]; [by left|by right]. }
  assert (verbose = false \/ all_ascii rows = true) as Hrows.
  { destruct Hprint as [?|[_ ?]%andb_true_iff]; [by left|by right]. }
  split.
  - intros col Hcol. rewrite (init_columns_header self self_header_eq), table_lookup.
    rewrite self_header_eq in Hcol.
    repeat (apply elem_of_cons in Hcol as [->|Hcol]; [done|]).
    by apply elem_of_nil in Hcol.
  - rewrite (init_columns_header self self_header_eq).
    rewrite (add_rows_table float_str self self_header_eq _ _ _ _ _ rows Hrows).
    simpl app.
    eexists. eexists. split; [reflexivity|].
    rewrite (add_row_table float_str self self_header_eq _ _ _ _ _ _ Hrow).
    split; [reflexivity|]. clear Hprint Hrow Hrows.
    split; [|split; [|by rewrite !table_lookup]].
    + intros k col Hk. rewrite self_header_eq in Hk.
      do 5 (destruct k as [|k];
            [injection Hk as <-; eexists; rewrite !table_lookup; by repeat split|]).
      done.
    + intros col Hcol. rewrite self_header_eq in Hcol. rewrite table_lookup.
      repeat (case_decide; [subst col; exfalso; apply Hcol; set_solver|]).
      done.
Qed.

(** C3: once all rows are read, the total is the sum of the cells of the
    "Wall Hours" column, added from left to right starting from [0] (the
    integer [0] when there is no row); then one more row is appended, with
    "Total" under "VOName", the total under "Wall Hours" and the empty string
    elsewhere.  The total is computed over the column as it is before that
    row, and the total row is the last one.  This holds for a quiet report,
    and for a verbose one when the lines of the rows can be formatted (their
    keys are ASCII). *)
Theorem total_row_is_sum_and_last (rows : list FlatRecord) :
  verbose = false \/ all_ascii rows = true ->
  exists (before report : Report) (column : list Py.value) (tot : Py.value),
    outcome (add_rows float_str self (init_columns (header self)) rows)
      = inr before /\
    before !! "Wall Hours" = Some column /\
    column = map (fun r => Py.Float (hours_of r)) rows /\
    Py.sum column = inr tot /\
    tot = match rows with
          | [] => Py.Int 0
          | _ :: _ =>
              Py.Float (fold_left PrimFloat.add (map hours_of rows) 0%float)
          end /\
    outcome (format_report_from float_str self rows) = inr report /\
    (forall col, col ∈ header self ->
       exists cs, before !! col = Some cs /\
                  length cs = length rows /\
                  report !! col = Some (cs ++ [total_cell col tot])) /\
    total_cell "VOName" tot = Py.Str "Total" /\
    total_cell "Wall Hours" tot = tot /\
    (forall col, col ∈ header self -> col ≠ "VOName" -> col ≠ "Wall Hours" ->
       total_cell col tot = Py.Str "") /\
    report !! "Wall Hours" = Some (column ++ [tot]) /\
    report_row report (header self) (length rows)
      = Some [Py.Str "Total"; Py.Str ""; Py.Str ""; Py.Str ""; tot] /\
    report_row report (header self) (S (length rows)) = None.
Proof.
  intros Hprint.
  rewrite (init_columns_header self self_header_eq).
  rewrite (add_rows_table float_str self self_header_eq _ _ _ _ _ rows Hprint).
  simpl app.
  rewrite (format_report_table float_str self self_header_eq rows Hprint).
  clear Hprint.
  eexists. eexists. exists (cells 4 rows), (hours_total rows).
  split; [reflexivity|].
  split; [by rewrite table_lookup|].
  split; [apply cells_hours|].
  split; [apply sum_hours|].
  split; [by destruct rows|].
  split; [reflexivity|].
  split.
  { intros col Hcol. rewrite self_header_eq in Hcol. rewrite !table_lookup.
    repeat (apply elem_of_cons in Hcol as [->|Hcol];
            [eexists; split; [done|]; split; [by apply cells_length; lia|done]|]).
    by apply elem_of_nil in Hcol. }
  split; [done|]. split; [done|].
  split.
  { intros col Hcol Hvo Hwall. rewrite self_header_eq in Hcol.
    repeat (apply elem_of_cons in Hcol as [->|Hcol]; [done|]).
    by apply elem_of_nil in Hcol. }
  split; [by rewrite table_lookup|].
  rewrite self_header_eq.
  apply table_last_row; apply cells_length; lia.
Qed.

(** C4: every column of the assembled report has as many cells as there
    are rows, plus one; the columns are those of the header.  This holds for
    a quiet report, and for a verbose one when the lines of the rows can be
    formatted (their keys are ASCII). *)
Theorem columns_have_equal_length (rows : list FlatRecord) (results : Results) :
  verbose = false \/
    (all_ascii rows = true /\ all_ascii (generate results) = true) ->
  exists report report_of_results : Report,
    outcome (format_report_from float_str self rows) = inr report /\
    (forall col, col ∈ header self <-> is_Some (report !! col)) /\
    (forall col column, report !! col = Some column ->
       length column = (length rows + 1)%nat) /\
    outcome (format_report float_str self results) = inr report_of_results /\
    (forall col, col ∈ header self <-> is_Some (report_of_results !! col)) /\
    (forall col column, report_of_results !! col = Some column ->
       length column = (length (generate results) + 1)%nat).
Proof.
  intros Hprint.
  assert (forall rows' : list FlatRecord,
    verbose = false \/ all_ascii rows' = true ->
    exists report : Report,
    outcome (format_report_from float_str self rows') = inr report /\
    (forall col, col ∈ header self <-> is_Some (report !! col)) /\
    (forall col column, report !! col = Some column ->
       length column = (length rows' + 1)%nat)) as Hrows.
  { intros rows' Hrows'.
    rewrite (format_report_table float_str self self_header_eq rows' Hrows').
    clear Hprint Hrows'.
    eexists. split; [reflexivity|]. split.
    - intros col. rewrite self_header_eq, table_lookup. split.
      + intros Hcol.
        repeat (apply elem_of_cons in Hcol as [->|Hcol]; [by eexists|]).
        by apply elem_of_nil in Hcol.
      + repeat (case_decide; [subst col; set_solver|]). by intros [? ?].
    - intros col column. rewrite table_lookup.
      repeat (case_decide;
              [intros [= <-]; rewrite length_app, cells_length by lia; done|]).
      done. }
  destruct (Hrows rows) as (report & H1 & H2 & H3).
  { destruct Hprint as [?|[? _]]; [by left|by right]. }
  destruct (Hrows (generate results)) as (report' & H1' & H2' & H3').
  { destruct Hprint as [?|[_ ?]]; [by left|by right]. }
  exists report, report'. done.
Qed.

(** C6: a response without site buckets yields no row, and no error; with
    no row, the report holds the total row alone, one cell in every column,
    and the total is [0]. *)
Theorem empty_response_gives_total_row_only :
  generate {| group_Site_buckets := [] |} = [] /\
  exists report : Report,
    outcome (format_report float_str self {| group_Site_buckets := [] |})
      = inr report /\
    outcome (format_report_from float_str self []) = inr report /\
    report = table [Py.Str "Total"] [Py.Str ""] [Py.Str ""] [Py.Str ""] [Py.Int 0] /\
    (forall col, col ∈ header self ->
       exists cell, report !! col = Some [cell]) /\
    (forall col column, report !! col = Some column -> length column = 1%nat) /\
    report !! "Wall Hours" = Some [Py.Int 0] /\
    report_rows report (header self) 1
      = Some [[Py.Str "Total"; Py.Str ""; Py.Str ""; Py.Str ""; Py.Int 0]].
Proof.
  split; [reflexivity|].
  unfold format_report. change (generate _) with (@nil FlatRecord).
  rewrite (format_report_table float_str self self_header_eq []
             (or_intror eq_refl)).
  eexists. split; [reflexivity|]. split; [reflexivity|].
  split; [reflexivity|].
  split.
  { intros col Hcol. rewrite self_header_eq in Hcol. rewrite table_lookup.
    repeat (apply elem_of_cons in Hcol as [->|Hcol]; [by eexists|]).
    by apply elem_of_nil in Hcol. }
  split.
  { intros col column. rewrite table_lookup.
    repeat (case_decide; [by intros [= <-]|]). done. }
  split; [by rewrite table_lookup|].
  unfold report_rows. cbn [seq mapM]. rewrite self_header_eq, table_row. done.
Qed.

(** C10: the verbose flag and the report returned.  On a response with a
    key that is not ASCII the quiet report returns its report, while the
    verbose one raises [UnicodeEncodeError] when it formats the line of the
    row, before anything is printed or added.  On responses whose keys are
    all ASCII the two return the same report, and the flag decides only
    whether the rows and the total are printed. *)
Theorem verbose_raises_on_non_ascii_key :
  let loud := FlockingReport_init config client indexpattern start end_
                true is_test no_email in
  let quiet := FlockingReport_init config client indexpattern start end_
                 false is_test no_email in
  generate non_ascii_tree = [("A", "VO1", "P1", cafe, 10%float)] /\
  outcome (format_report float_str quiet non_ascii_tree)
  = inr (table [Py.Str "A"; Py.Str "Total"] [Py.Str "VO1"; Py.Str ""]
               [Py.Str "P1"; Py.Str ""] [Py.Str cafe; Py.Str ""]
               [Py.Float 10; Py.Float 10]) /\
  outcome (format_report float_str loud non_ascii_tree)
  = inl (Py.UnicodeEncodeError cafe) /\
  written (format_report float_str loud non_ascii_tree) = [] /\
  (forall results : Results,
     all_ascii (generate results) = true ->
     outcome (format_report float_str loud results)
     = outcome (format_report float_str quiet results) /\
     (exists report : Report,
        outcome (format_report float_str quiet results) = inr report) /\
     written (format_report float_str quiet results) = [] /\
     written (format_report float_str loud results)
     = map (fun r => Stdout (row_line float_str r)) (generate results)
       ++ [Stdout ("The total Wall hours in this report are "
                   ++ format_value float_str
                        (hours_total (generate results)))%string]).
Proof.
  intros loud quiet. split; [reflexivity|]. split.
  { unfold format_report.
    rewrite (format_report_table float_str quiet eq_refl
               (generate non_ascii_tree) (or_introl eq_refl)).
    reflexivity. }
  split; [reflexivity|]. split; [reflexivity|].
  intros results Hascii. split.
  { by apply format_report_from_outcome. }
  unfold format_report.
  rewrite (format_report_table float_str loud eq_refl
             (generate results) (or_intror Hascii)).
  rewrite (format_report_table float_str quiet eq_refl
             (generate results) (or_introl eq_refl)).
  repeat split. by eexists.
Qed.

(** C1: the report for the response with site "A", VO "VO1", probe "P1"
    and the projects "Proj1" (10.0) and "Proj2" (5.0).  The rows of
    [generate] start with the key of the site, and the columns are filled by
    position, so "VOName" receives "A" and "SiteName" receives "VO1". *)
Theorem end_to_end_report :
  generate end_to_end_tree
    = [("A", "VO1", "P1", "Proj1", 10%float); ("A", "VO1", "P1", "Proj2", 5%float)] /\
  exists report : Report,
    outcome (format_report float_str self end_to_end_tree) = inr report /\
    report_rows report (header self) 3
      = Some [[Py.Str "A"; Py.Str "VO1"; Py.Str "P1"; Py.Str "Proj1"; Py.Float 10];
              [Py.Str "A"; Py.Str "VO1"; Py.Str "P1"; Py.Str "Proj2"; Py.Float 5];
              [Py.Str "Total"; Py.Str ""; Py.Str ""; Py.Str ""; Py.Float 15]] /\
    report !! "VOName" = Some [Py.Str "A"; Py.Str "A"; Py.Str "Total"] /\
    report !! "SiteName" = Some [Py.Str "VO1"; Py.Str "VO1"; Py.Str ""] /\
    report_rows report (header self) 3
      ≠ Some [[Py.Str "VO1"; Py.Str "A"; Py.Str "P1"; Py.Str "Proj1"; Py.Float 10];
              [Py.Str "VO1"; Py.Str "A"; Py.Str "P1"; Py.Str "Proj2"; Py.Float 5];
              [Py.Str "Total"; Py.Str ""; Py.Str ""; Py.Str ""; Py.Float 15]].
Proof.
  split; [reflexivity|].
  unfold format_report.
  rewrite (format_report_table float_str self self_header_eq
             (generate end_to_end_tree) (or_intror eq_refl)).
  eexists. split; [reflexivity|].
  assert (report_rows
            (table (cells 0 (generate end_to_end_tree) ++ [Py.Str "Total"])
                   (cells 1 (generate end_to_end_tree) ++ [Py.Str ""])
                   (cells 2 (generate end_to_end_tree) ++ [Py.Str ""])
                   (cells 3 (generate end_to_end_tree) ++ [Py.Str ""])
                   (cells 4 (generate end_to_end_tree)
                      ++ [hours_total (generate end_to_end_tree)]))
            (header self) 3
          = Some [[Py.Str "A"; Py.Str "VO1"; Py.Str "P1"; Py.Str "Proj1"; Py.Float 10];
                  [Py.Str "A"; Py.Str "VO1"; Py.Str "P1"; Py.Str "Proj2"; Py.Float 5];
                  [Py.Str "Total"; Py.Str ""; Py.Str ""; Py.Str ""; Py.Float 15]])
    as Hrows.
  { unfold report_rows. cbn [seq mapM]. rewrite self_header_eq, !table_row.
    reflexivity. }
  split; [exact Hrows|].
  split; [by rewrite table_lookup|].
  split; [by rewrite table_lookup|].
  rewrite Hrows. intros [=].
Qed.

End Assembly.

(** ** Flattening *)

Section Bind.

Context {A B : Type} (f : A -> list B) (size : A -> nat).
Hypothesis f_size : forall x, length (f x) = size x.

Lemma length_bind_sum (l : list A) : length (l ≫= f) = sum_list_with size l.
Proof.
  induction l as [|x l IH]; [done|].
  rewrite bind_cons, length_app, IH, f_size. done.
Qed.

(** Element [n] of the part of [x] comes after the parts of the elements
    before [x]. *)
Lemma bind_lookup_Some (l : list A) (i : nat) (x : A) (n : nat) (y : B) :
  l !! i = Some x -> f x !! n = Some y ->
  (l ≫= f) !! (sum_list_with size (take i l) + n)%nat = Some y.
Proof.
  intros Hx Hy.
  assert (l ≫= f = (take i l ≫= f) ++ f x ++ (drop (S i) l ≫= f)) as ->.
  { by rewrite <- bind_cons, <- bind_app, take_drop_middle. }
  rewrite <- length_bind_sum.
  rewrite lookup_app_r by lia.
  replace (length (take i l ≫= f) + n - length (take i l ≫= f))%nat with n by lia.
  by apply lookup_app_l_Some.
Qed.

(** Every element of the result comes from the part of some [x]. *)
Lemma bind_lookup_inv (l : list A) (n : nat) (y : B) :
  (l ≫= f) !! n = Some y ->
  exists i x m,
    l !! i = Some x /\ f x !! m = Some y /\
    n = (sum_list_with size (take i l) + m)%nat.
Proof.
  revert n. induction l as [|x l IH]; intros n Hn; [done|].
  rewrite bind_cons in Hn. apply lookup_app_Some in Hn as [Hn|[Hge Hn]].
  - exists 0%nat, x, n. done.
  - apply IH in Hn as (i & x' & m & Hx' & Hy & Heq).
    exists (S i), x', m. split; [done|]. split; [done|].
    simpl. rewrite f_size in *. lia.
Qed.

End Bind.

Lemma generate_site_rows (results : Results) :
  generate results = group_Site_buckets results ≫= site_rows.
Proof. reflexivity. Qed.

Lemma probe_rows_map (sk vk : string) (probe : ProbeBucket) :
  probe_rows sk vk probe
  = map (fun project => (sk, vk, probe_key probe, project_key project,
                         CoreHours_sum_value project))
        (group_ProjectName_buckets probe).
Proof.
  unfold probe_rows. induction (group_ProjectName_buckets probe) as [|p ps IH];
    [done|]. rewrite bind_cons, IH. done.
Qed.

Lemma probe_rows_length (sk vk : string) (probe : ProbeBucket) :
  length (probe_rows sk vk probe) = probe_leaves probe.
Proof. rewrite probe_rows_map. apply length_map. Qed.

Lemma vo_rows_length (sk : string) (vo : VOBucket) :
  length (vo_rows sk vo) = vo_leaves vo.
Proof. apply length_bind_sum. intros probe. apply probe_rows_length. Qed.

Lemma site_rows_length (site : SiteBucket) :
  length (site_rows site) = site_leaves site.
Proof. apply length_bind_sum. intros vo. apply vo_rows_length. Qed.

Lemma generate_length (results : Results) :
  length (generate results) = leaves results.
Proof. apply length_bind_sum. apply site_rows_length. Qed.

(** C5: flattening walks the four levels depth first, in the order Site,
    VO, Probe, Project and in the order of the buckets of each level: there
    is one row per innermost bucket, the row of a bucket stands at the
    number of innermost buckets before it, it holds the keys of the four
    buckets on the way and the value of the metric, and there is no other
    row.  The response with the single path S1, V1, P1, Pr1 and the value
    5.0 yields exactly the row (S1, V1, P1, Pr1, 5.0). *)
Theorem generate_depth_first (results : Results) :
  length (generate results) = leaves results /\
  (forall i j k l site vo probe project,
     group_Site_buckets results !! i = Some site ->
     group_VOName_buckets site !! j = Some vo ->
     group_ProbeName_buckets vo !! k = Some probe ->
     group_ProjectName_buckets probe !! l = Some project ->
     generate results !! rank results i j k l
     = Some (site_key site, vo_key vo, probe_key probe, project_key project,
             CoreHours_sum_value project)) /\
  (forall n row,
     generate results !! n = Some row ->
     exists i j k l site vo probe project,
       group_Site_buckets results !! i = Some site /\
       group_VOName_buckets site !! j = Some vo /\
       group_ProbeName_buckets vo !! k = Some probe /\
       group_ProjectName_buckets probe !! l = Some project /\
       n = rank results i j k l /\
       row = (site_key site, vo_key vo, probe_key probe, project_key project,
              CoreHours_sum_value project)) /\
  generate order_tree = [("S1", "V1", "P1", "Pr1", 5%float)].
Proof.
  split; [apply generate_length|]. split; [|split; [|reflexivity]].
  - intros i j k l site vo probe project Hsite Hvo Hprobe Hproject.
    unfold rank. rewrite Hsite. simpl. rewrite Hvo. simpl.
    rewrite generate_site_rows, <- !Nat.add_assoc.
    apply (bind_lookup_Some site_rows site_leaves site_rows_length _ _ site);
      [done|].
    apply (bind_lookup_Some (vo_rows (site_key site)) vo_leaves
             (vo_rows_length (site_key site)) _ _ vo); [done|].
    apply (bind_lookup_Some (probe_rows (site_key site) (vo_key vo)) probe_leaves
             (probe_rows_length (site_key site) (vo_key vo)) _ _ probe); [done|].
    rewrite probe_rows_map, list_lookup_fmap, Hproject. done.
  - intros n row Hrow. rewrite generate_site_rows in Hrow.
    apply (bind_lookup_inv site_rows site_leaves site_rows_length) in Hrow
      as (i & site & n1 & Hsite & Hrow & ->).
    apply (bind_lookup_inv (vo_rows (site_key site)) vo_leaves
             (vo_rows_length (site_key site))) in Hrow
      as (j & vo & n2 & Hvo & Hrow & ->).
    apply (bind_lookup_inv (probe_rows (site_key site) (vo_key vo)) probe_leaves
             (probe_rows_length (site_key site) (vo_key vo))) in Hrow
      as (k & probe & l & Hprobe & Hrow & ->).
    rewrite probe_rows_map, list_lookup_fmap in Hrow.
    destruct (group_ProjectName_buckets probe !! l) as [project|] eqn:Hproject;
      [|done].
    injection Hrow as <-.
    exists i, j, k, l, site, vo, probe, project.
    repeat (split; [done|]). split; [|done].
    unfold rank. rewrite Hsite. simpl. rewrite Hvo. simpl. lia.
Qed.

(** ** The generator *)

Lemma enter_probe_rows (sk vk : string) (probes : list ProbeBucket) :
  match enter_probe probes with
  | Some (pk, project, projects, probes') =>
      probes ≫= probe_rows sk vk
      = (sk, vk, pk, project_key project, CoreHours_sum_value project)
        :: map (fun p => (sk, vk, pk, project_key p, CoreHours_sum_value p)) projects
        ++ (probes' ≫= probe_rows sk vk)
  | None => probes ≫= probe_rows sk vk = []
  end.
Proof.
  induction probes as [|probe probes IH]; [done|].
  simpl enter_probe.
  destruct (group_ProjectName_buckets probe) as [|project projects] eqn:Hprojects.
  - destruct (enter_probe probes) as [[[[pk project] projects] probes']|];
      rewrite bind_cons, probe_rows_map, Hprojects; exact IH.
  - by rewrite bind_cons, probe_rows_map, Hprojects.
Qed.

Lemma enter_vo_rows (sk : string) (vos : list VOBucket) :
  match enter_vo vos with
  | Some (vk, (pk, project, projects, probes), vos') =>
      vos ≫= vo_rows sk
      = (sk, vk, pk, project_key project, CoreHours_sum_value project)
        :: map (fun p => (sk, vk, pk, project_key p, CoreHours_sum_value p)) projects
        ++ (probes ≫= probe_rows sk vk)
        ++ (vos' ≫= vo_rows sk)
  | None => vos ≫= vo_rows sk = []
  end.
Proof.
  induction vos as [|vo vos IH]; [done|].
  simpl enter_vo.
  assert ((vo :: vos) ≫= vo_rows sk
          = (group_ProbeName_buckets vo ≫= probe_rows sk (vo_key vo))
            ++ (vos ≫= vo_rows sk)) as Hcons by (by rewrite bind_cons).
  pose proof (enter_probe_rows sk (vo_key vo) (group_ProbeName_buckets vo)) as Hp.
  destruct (enter_probe (group_ProbeName_buckets vo))
    as [[[[pk project] projects] probes]|].
  - etrans; [exact Hcons|]. rewrite Hp. simpl. by rewrite <- app_assoc.
  - destruct (enter_vo vos) as [[[vk [[[pk project] projects] probes]] vos']|];
      (etrans; [exact Hcons|]); rewrite Hp; exact IH.
Qed.

Lemma enter_site_rows (sites : list SiteBucket) :
  match enter_site sites with
  | Some (sk, (vk, (pk, project, projects, probes), vos), sites') =>
      sites ≫= site_rows
      = (sk, vk, pk, project_key project, CoreHours_sum_value project)
        :: map (fun p => (sk, vk, pk, project_key p, CoreHours_sum_value p)) projects
        ++ (probes ≫= probe_rows sk vk)
        ++ (vos ≫= vo_rows sk)
        ++ (sites' ≫= site_rows)
  | None => sites ≫= site_rows = []
  end.
Proof.
  induction sites as [|site sites IH]; [done|].
  simpl enter_site.
  assert ((site :: sites) ≫= site_rows
          = (group_VOName_buckets site ≫= vo_rows (site_key site))
            ++ (sites ≫= site_rows)) as Hcons by (by rewrite bind_cons).
  pose proof (enter_vo_rows (site_key site) (group_VOName_buckets site)) as Hv.
  destruct (enter_vo (group_VOName_buckets site))
    as [[[vk [[[pk project] projects] probes]] vos]|].
  - etrans; [exact Hcons|]. rewrite Hv. simpl. by rewrite <- !app_assoc.
  - destruct (enter_site sites)
      as [[[sk [[vk [[[pk project] projects] probes]] vos]] sites']|];
      (etrans; [exact Hcons|]); rewrite Hv; exact IH.
Qed.

(** One [next]: the row yielded is the first of those left, and the frame
    is left with the others. *)
Lemma gen_resume_rows (f : gen_frame) :
  match gen_resume f with
  | Some (row, f') => frame_rows f = row :: frame_rows f'
  | None => frame_rows f = []
  end.
Proof.
  unfold gen_resume, frame_rows.
  destruct (it_project f) as [|project projects]; [|done].
  pose proof (enter_probe_rows (sitekey f) (vokey f) (it_probe f)) as Hp.
  destruct (enter_probe (it_probe f)) as [[[[pk project] projects] probes]|].
  { simpl. rewrite Hp. simpl. by rewrite <- !app_assoc. }
  pose proof (enter_vo_rows (sitekey f) (it_vo f)) as Hv.
  destruct (enter_vo (it_vo f)) as [[[vk [[[pk project] projects] probes]] vos]|].
  { simpl. rewrite Hp, Hv. simpl. by rewrite <- !app_assoc. }
  pose proof (enter_site_rows (it_site f)) as Hs.
  destruct (enter_site (it_site f))
    as [[[sk [[vk [[[pk project] projects] probes]] vos]] sites]|].
  { simpl. rewrite Hp, Hv, Hs. simpl. done. }
  simpl. by rewrite Hp, Hv, Hs.
Qed.

Lemma frame_rows_start (results : Results) :
  frame_rows (gen_start results) = generate results.
Proof. reflexivity. Qed.

(** Iterating a suspended generator to its end yields the rows it has
    left, and leaves it finished; other generators are not touched. *)
Lemma gen_drain_rows (fuel : nat) (g : nat) (f : gen_frame) (h : heap) :
  h !! g = Some (Suspended f) ->
  (length (frame_rows f) < fuel)%nat ->
  gen_drain fuel g h = Some (frame_rows f, <[g := Finished]> h).
Proof.
  revert f h. induction fuel as [|fuel IH]; intros f h Hg Hfuel; [lia|].
  simpl. unfold gen_next. rewrite Hg.
  pose proof (gen_resume_rows f) as Hrows.
  destruct (gen_resume f) as [[row f']|].
  - rewrite Hrows in Hfuel |- *. simpl in Hfuel.
    rewrite (IH f' (<[g := Suspended f']> h)).
    + by rewrite insert_insert_eq.
    + apply lookup_insert_eq.
    + lia.
  - by rewrite Hrows.
Qed.

Lemma call_generate_fresh (results : Results) (h : heap) :
  h !! (call_generate results h).1 = None /\
  (call_generate results h).2 !! (call_generate results h).1
  = Some (Suspended (gen_start results)) /\
  forall g, g ≠ (call_generate results h).1 ->
    (call_generate results h).2 !! g = h !! g.
Proof.
  unfold call_generate. simpl. split; [|split].
  - apply not_elem_of_dom. apply is_fresh.
  - apply lookup_insert_eq.
  - intros g Hg. by apply lookup_insert_ne.
Qed.

Lemma gen_drain_fresh (results : Results) (g : nat) (h : heap) :
  h !! g = Some (Suspended (gen_start results)) ->
  gen_drain (S (leaves results)) g h
  = Some (generate results, <[g := Finished]> h).
Proof.
  intros Hg. rewrite <- frame_rows_start. apply gen_drain_rows; [done|].
  rewrite frame_rows_start, generate_length. lia.
Qed.

(** C8: every call of [generate] on the same response gives a generator
    that yields the same rows in the same order, in finitely many steps.
    This holds for a second call made after the first generator is
    exhausted (which itself stays exhausted), and for two generators made
    before either is read: reading one does not advance the other. *)
Theorem generate_restartable (results : Results) (h : heap) :
  let fuel := S (leaves results) in
  (let g1 := (call_generate results h).1 in
   let h1 := (call_generate results h).2 in
   exists h1' : heap,
     gen_drain fuel g1 h1 = Some (generate results, h1') /\
     gen_next g1 h1' = Some (None, h1') /\
     let g2 := (call_generate results h1').1 in
     let h2 := (call_generate results h1').2 in
     g2 ≠ g1 /\
     exists h2' : heap,
       gen_drain fuel g2 h2 = Some (generate results, h2') /\
       gen_next g1 h2' = Some (None, h2')) /\
  (let g1 := (call_generate results h).1 in
   let h1 := (call_generate results h).2 in
   let g2 := (call_generate results h1).1 in
   let h2 := (call_generate results h1).2 in
   g2 ≠ g1 /\
   exists ha hb : heap,
     gen_drain fuel g1 h2 = Some (generate results, ha) /\
     gen_drain fuel g2 ha = Some (generate results, hb)).
Proof.
  intros fuel. split.
  - intros g1 h1.
    destruct (call_generate_fresh results h) as (_ & Hg1 & _).
    fold g1 h1 in Hg1.
    exists (<[g1 := Finished]> h1).
    split; [by apply gen_drain_fresh|].
    split; [unfold gen_next; by rewrite lookup_insert_eq|].
    intros g2 h2.
    destruct (call_generate_fresh results (<[g1 := Finished]> h1))
      as (Hnew & Hg2 & Hother).
    fold g2 h2 in Hnew, Hg2, Hother.
    assert (g2 ≠ g1) as Hne.
    { intros Heq. rewrite Heq, lookup_insert_eq in Hnew. discriminate. }
    split; [done|].
    exists (<[g2 := Finished]> h2).
    split; [by apply gen_drain_fresh|].
    unfold gen_next. rewrite lookup_insert_ne by done.
    rewrite Hother by done. by rewrite lookup_insert_eq.
  - intros g1 h1 g2 h2.
    destruct (call_generate_fresh results h) as (_ & Hg1 & _).
    fold g1 h1 in Hg1.
    destruct (call_generate_fresh results h1) as (Hnew & Hg2 & Hother).
    fold g2 h2 in Hnew, Hg2, Hother.
    assert (g2 ≠ g1) as Hne.
    { intros Heq. rewrite Heq, Hg1 in Hnew. discriminate. }
    split; [done|].
    exists (<[g1 := Finished]> h2), (<[g2 := Finished]> (<[g1 := Finished]> h2)).
    split.
    + apply gen_drain_fresh. rewrite Hother by done. exact Hg1.
    + apply gen_drain_fresh. by rewrite lookup_insert_ne.
Qed.

(** ** The probe list *)

Lemma split_comma_cons (s : string) :
  exists piece pieces, Py.split_comma s = piece :: pieces.
Proof.
  destruct s as [|c s]; simpl; [by eauto|].
  destruct (Ascii.eqb c ","); [by eauto|].
  destruct (Py.split_comma s); eauto.
Qed.

Lemma join_comma_cons (piece : string) (pieces : list string) :
  pieces ≠ [] ->
  join_comma (piece :: pieces) = (piece ++ "," ++ join_comma pieces)%string.
Proof. by destruct pieces. Qed.

Lemma join_split_comma (s : string) : join_comma (Py.split_comma s) = s.
Proof.
  induction s as [|c s IH]; [done|]. cbn [Py.split_comma].
  destruct (split_comma_cons s) as (piece & pieces & Hs). rewrite Hs in IH |- *.
  destruct (Ascii.eqb c ",") eqn:Hc.
  - apply Ascii.eqb_eq in Hc as ->. rewrite join_comma_cons by done.
    rewrite IH. done.
  - destruct pieces as [|piece' pieces].
    + simpl in *. by rewrite IH.
    + rewrite join_comma_cons in IH |- * by done. by rewrite <- IH.
Qed.

Lemma split_comma_free (s : string) :
  Forall (fun piece => comma_free piece = true) (Py.split_comma s).
Proof.
  induction s as [|c s IH]; simpl; [by repeat constructor|].
  destruct (Ascii.eqb c ",") eqn:Hc; [by constructor|].
  destruct (Py.split_comma s) as [|piece pieces].
  - repeat constructor. simpl. by rewrite Hc.
  - apply Forall_cons in IH as [Hpiece Hpieces].
    constructor; [|done]. simpl. by rewrite Hc.
Qed.

Lemma split_comma_length (s : string) :
  length (Py.split_comma s) = S (count_commas s).
Proof.
  induction s as [|c s IH]; [done|]. simpl.
  destruct (Ascii.eqb c ","); simpl; [by rewrite IH|].
  destruct (Py.split_comma s); simpl in *; done.
Qed.

Lemma split_comma_free_piece (piece rest : string) :
  comma_free piece = true ->
  Py.split_comma (piece ++ String "," rest)%string = piece :: Py.split_comma rest.
Proof.
  intros Hfree. induction piece as [|c piece IH]; simpl in *.
  - done.
  - apply andb_true_iff in Hfree as [Hc Hfree].
    apply negb_true_iff in Hc. rewrite Hc, IH by done. done.
Qed.

Lemma split_comma_single (piece : string) :
  comma_free piece = true -> Py.split_comma piece = [piece].
Proof.
  intros Hfree. induction piece as [|c piece IH]; simpl in *; [done|].
  apply andb_true_iff in Hfree as [Hc Hfree].
  apply negb_true_iff in Hc. rewrite Hc, IH by done. done.
Qed.

(** Splitting is the only way to cut a string into pieces without commas. *)
Lemma split_join_comma (pieces : list string) :
  pieces ≠ [] ->
  Forall (fun piece => comma_free piece = true) pieces ->
  Py.split_comma (join_comma pieces) = pieces.
Proof.
  induction pieces as [|piece pieces IH]; intros Hne Hfree; [done|].
  apply Forall_cons in Hfree as [Hpiece Hfree].
  destruct pieces as [|piece' pieces].
  - simpl. by apply split_comma_single.
  - rewrite join_comma_cons by done.
    change ("," ++ join_comma (piece' :: pieces))%string
      with (String "," (join_comma (piece' :: pieces))).
    rewrite split_comma_free_piece by done. by rewrite IH.
Qed.

(** ** The request *)

Section Query.

Variable dateparse_to_iso : string -> Py.exn + string.
Variable conf : string -> string -> Py.exn + string.
Variables es pattern start end_ : string.
Variables loud is_test_ no_email_ : bool.

Local Abbreviation self :=
  (FlockingReport_init conf es pattern start end_ loud is_test_ no_email_).

Lemma query_request (probes starttimeq endtimeq : string) :
  dateparse_to_iso start = inr starttimeq ->
  dateparse_to_iso end_ = inr endtimeq ->
  conf "flocking_report" "flocking_probe_list" = inr probes ->
  query dateparse_to_iso self
  = (if loud then [LogInfo pattern] else [],
     inr (flocking_request es pattern starttimeq endtimeq
            (Py.split_comma probes))).
Proof.
  intros Hstart Hend Hprobes. unfold query.
  unfold FlockingReport_init.
  cbn [start_time end_time report_type verbose config client indexpattern].
  change (Py.lower "Flocking" ++ "_report")%string with "flocking_report".
  rewrite Hstart, Hend, Hprobes. by destruct loud.
Qed.

(** C7: the request built for a time window and a list of probes: the
    range filter on EndTime from the start (included, [gte]) to the end
    (excluded, [lt]), the terms filter on ProbeName with the probes, the
    filter ResourceType = "Payload", no hits (size 0), the aggregations
    Site, VOName, ProbeName, ProjectName nested in this order on the fields
    SiteName, ReportableVOName, ProbeName, ProjectName, each with the bucket
    bound [2^31 - 1], "N/A" for a missing ProjectName, and the sum of
    CoreHours in the innermost one. *)
Theorem query_builds_request (probes starttimeq endtimeq : string) :
  dateparse_to_iso start = inr starttimeq ->
  dateparse_to_iso end_ = inr endtimeq ->
  conf "flocking_report" "flocking_probe_list" = inr probes ->
  exists (s : ES.Search) (bounds : gmap string string),
    outcome (query dateparse_to_iso self) = inr s /\
    s = flocking_request es pattern starttimeq endtimeq
          (Py.split_comma probes) /\
    ES.filters s
    = [ES.Range "EndTime" bounds;
       ES.Terms "ProbeName" (Py.split_comma probes);
       ES.Term "ResourceType" "Payload"] /\
    (forall op, bounds !! op
                = if decide (op = "gte") then Some starttimeq
                  else if decide (op = "lt") then Some endtimeq
                  else None) /\
    ES.extra_size s = Some 0 /\
    ES.aggs s
    = [ES.MkAgg "group_Site"
         {| ES.agg_type := "terms"; ES.field := "SiteName";
            ES.missing := None; ES.size := Some MAXINT |}
         [ES.MkAgg "group_VOName"
            {| ES.agg_type := "terms"; ES.field := "ReportableVOName";
               ES.missing := None; ES.size := Some MAXINT |}
            [ES.MkAgg "group_ProbeName"
               {| ES.agg_type := "terms"; ES.field := "ProbeName";
                  ES.missing := None; ES.size := Some MAXINT |}
               [ES.MkAgg "group_ProjectName"
                  {| ES.agg_type := "terms"; ES.field := "ProjectName";
                     ES.missing := Some "N/A"; ES.size := Some MAXINT |}
                  [ES.MkAgg "CoreHours_sum"
                     {| ES.agg_type := "sum"; ES.field := "CoreHours";
                        ES.missing := None; ES.size := None |} []]]]]] /\
    MAXINT = 2 ^ 31 - 1 /\ MAXINT = 2147483647.
Proof.
  intros Hstart Hend Hprobes.
  rewrite (query_request probes starttimeq endtimeq Hstart Hend Hprobes).
  eexists. eexists. split; [reflexivity|]. split; [reflexivity|].
  split; [reflexivity|]. split; [|done].
  intros op. repeat case_decide; simplify_map_eq; done.
Qed.

(** C9: the probes of the request are the pieces of the configured string
    between its commas, all of them: joined with commas they give the string
    back, none contains a comma, there is one more than there are commas,
    and no other list of comma-free pieces gives the string.  Empty pieces
    and pieces of white space are kept. *)
Theorem probe_list_is_comma_split (probes starttimeq endtimeq : string) :
  dateparse_to_iso start = inr starttimeq ->
  dateparse_to_iso end_ = inr endtimeq ->
  conf "flocking_report" "flocking_probe_list" = inr probes ->
  exists s : ES.Search,
    outcome (query dateparse_to_iso self) = inr s /\
    probes_of s = Some (Py.split_comma probes) /\
    join_comma (Py.split_comma probes) = probes /\
    Forall (fun piece => comma_free piece = true) (Py.split_comma probes) /\
    length (Py.split_comma probes) = S (count_commas probes) /\
    (forall pieces, pieces ≠ [] ->
       Forall (fun piece => comma_free piece = true) pieces ->
       join_comma pieces = probes -> Py.split_comma probes = pieces) /\
    Py.split_comma "a,,b" = ["a"; ""; "b"] /\
    Py.split_comma "" = [""] /\
    Py.split_comma "a, ,b" = ["a"; " "; "b"].
Proof.
  intros Hstart Hend Hprobes.
  rewrite (query_request probes starttimeq endtimeq Hstart Hend Hprobes).
  eexists. split; [reflexivity|]. split; [reflexivity|].
  split; [apply join_split_comma|]. split; [apply split_comma_free|].
  split; [apply split_comma_length|]. split; [|done].
  intros pieces Hne Hfree <-. by apply split_join_comma.
Qed.

End Query.

(** ** The request and the probe list on a concrete report *)

(** The request of a report over January 2018 for two probes, with times
    that parse to themselves. *)
Lemma query_builds_request_witness :
  (inr "2018-01-01" : Py.exn + string) = inr "2018-01-01" /\
  (inr "2018-02-01" : Py.exn + string) = inr "2018-02-01" /\
  outcome (query inr
             (FlockingReport_init (fun _ _ => inr "probe1,probe2")
                "localhost:9200" "gracc.osg.summary" "2018-01-01" "2018-02-01"
                true false false))
  = inr (flocking_request "localhost:9200" "gracc.osg.summary"
           "2018-01-01" "2018-02-01" ["probe1"; "probe2"]).
Proof.
  destruct (query_builds_request inr (fun _ _ => inr "probe1,probe2")
              "localhost:9200" "gracc.osg.summary" "2018-01-01" "2018-02-01"
              true false false "probe1,probe2" "2018-01-01" "2018-02-01"
              eq_refl eq_refl eq_refl)
    as (s & bounds & Hs & Heq & _).
  split; [reflexivity|]. split; [reflexivity|].
  rewrite Hs, Heq. reflexivity.
Defined.

(** The probes of a report configured with an empty entry between two
    commas. *)
Lemma probe_list_is_comma_split_witness :
  (inr "a,,b" : Py.exn + string) = inr "a,,b" /\
  exists s : ES.Search,
    outcome (query inr
               (FlockingReport_init (fun _ _ => inr "a,,b")
                  "localhost:9200" "gracc.osg.summary" "2018-01-01" "2018-02-01"
                  false false false)) = inr s /\
    probes_of s = Some ["a"; ""; "b"].
Proof.
  destruct (probe_list_is_comma_split inr (fun _ _ => inr "a,,b")
              "localhost:9200" "gracc.osg.summary" "2018-01-01" "2018-02-01"
              false false false "a,,b" "2018-01-01" "2018-02-01"
              eq_refl eq_refl eq_refl)
    as (s & Hs & Hprobes & _).
  split; [reflexivity|]. exists s. split; [exact Hs|exact Hprobes].
Defined.

(** * Further properties of the code *)

(** ** Empty branches of the response *)

Lemma bind_filter_nil {A B : Type} (f : A -> list B) (P : A -> Prop)
    `{forall x, Decision (P x)} (l : list A) :
  (forall x, ~ P x -> f x = []) ->
  filter P l ≫= f = l ≫= f.
Proof.
  intros Hnil. induction l as [|x l IH]; [done|].
  rewrite filter_cons. destruct (decide (P x)) as [HP|HP].
  - by rewrite !bind_cons, IH.
  - by rewrite bind_cons, (Hnil x HP), IH.
Qed.

Lemma bind_ext_rows {A B : Type} (f g : A -> list B) (l : list A) :
  (forall x, f x = g x) -> l ≫= f = l ≫= g.
Proof.
  intros Hfg. induction l as [|x l IH]; [done|].
  by rewrite !bind_cons, Hfg, IH.
Qed.

Lemma rows_nil_of_no_leaf (rows : list FlatRecord) (n : nat) :
  length rows = n -> ~ n ≠ 0%nat -> rows = [].
Proof. intros <- Hn. apply nil_length_inv. lia. Qed.

Lemma vo_rows_prune (sk : string) (vo : VOBucket) :
  vo_rows sk (prune_vo vo) = vo_rows sk vo.
Proof.
  unfold vo_rows, prune_vo. simpl. apply bind_filter_nil.
  intros probe. apply rows_nil_of_no_leaf, probe_rows_length.
Qed.

Lemma site_rows_prune (site : SiteBucket) :
  site_rows (prune_site site) = site_rows site.
Proof.
  unfold site_rows, prune_site. simpl.
  rewrite bind_filter_nil.
  - rewrite list_fmap_bind. apply bind_ext_rows. intros vo. apply vo_rows_prune.
  - intros vo. apply rows_nil_of_no_leaf, vo_rows_length.
Qed.

(** X1: buckets that hold no innermost bucket (a site without VO buckets,
    a VO without probe buckets, a probe without project buckets, at any
    depth) contribute nothing: the rows are those of the response without
    them. *)
Theorem generate_ignores_empty_branches (results : Results) :
  generate (prune results) = generate results.
Proof.
  rewrite !generate_site_rows. unfold prune. simpl.
  rewrite bind_filter_nil.
  - rewrite list_fmap_bind. apply bind_ext_rows. intros site.
    apply site_rows_prune.
  - intros site. apply rows_nil_of_no_leaf, site_rows_length.
Qed.

(** ** Reading a generator step by step *)

Lemma gen_nexts_finished (n : nat) (g : nat) (h : heap) :
  h !! g = Some Finished ->
  gen_nexts n g h = Some (replicate n None, h).
Proof.
  intros Hg. induction n as [|n IH]; [done|].
  simpl. unfold gen_next. rewrite Hg, IH. done.
Qed.

Lemma gen_nexts_rows (n : nat) (g : nat) (f : gen_frame) (h : heap) :
  h !! g = Some (Suspended f) ->
  exists h' : heap,
    gen_nexts n g h
    = Some (map Some (take n (frame_rows f))
              ++ replicate (n - length (frame_rows f)) None, h') /\
    forall g', g' ≠ g -> h' !! g' = h !! g'.
Proof.
  revert f h. induction n as [|n IH]; intros f h Hg.
  { exists h. done. }
  simpl gen_nexts. unfold gen_next. rewrite Hg.
  pose proof (gen_resume_rows f) as Hrows.
  destruct (gen_resume f) as [[row f']|].
  - destruct (IH f' (<[g := Suspended f']> h)) as (h' & -> & Hother);
      [apply lookup_insert_eq|].
    exists h'. rewrite Hrows. split; [done|].
    intros g' Hg'. rewrite Hother by done. by apply lookup_insert_ne.
  - rewrite gen_nexts_finished by apply lookup_insert_eq.
    exists (<[g := Finished]> h). rewrite Hrows. split; [done|].
    intros g' Hg'. by apply lookup_insert_ne.
Qed.

(** X2: a new generator yields the rows of [generate] one per call of
    [next], in order; once they are all yielded every further call raises
    [StopIteration]; and no other generator of the heap is touched. *)
Theorem generator_yields_rows_in_order (results : Results) (h : heap) (n : nat) :
  let g := (call_generate results h).1 in
  let h1 := (call_generate results h).2 in
  exists h' : heap,
    gen_nexts n g h1
    = Some (map Some (take n (generate results))
              ++ replicate (n - length (generate results)) None, h') /\
    forall g', g' ≠ g -> h' !! g' = h !! g'.
Proof.
  intros g h1.
  destruct (call_generate_fresh results h) as (_ & Hg & Hother).
  fold g h1 in Hg, Hother.
  destruct (gen_nexts_rows n g (gen_start results) h1 Hg) as (h' & Hrun & Hframe).
  exists h'. rewrite <- frame_rows_start. split; [done|].
  intros g' Hg'. rewrite Hframe by done. by apply Hother.
Qed.

(** ** The report for any header *)

Lemma outcome_bind_inr {A B : Type} (m : M A) (k : A -> M B) (a : A) :
  outcome m = inr a -> outcome (m ≫= k) = outcome (k a).
Proof.
  destruct m as [out [e|a']]; simpl; intros [= ->].
  unfold mbind, M_bind, outcome. simpl. by destruct (k a).
Qed.

Lemma outcome_bind_inl {A B : Type} (m : M A) (k : A -> M B) (e : Py.exn) :
  outcome m = inl e -> outcome (m ≫= k) = inl e.
Proof. destruct m as [out [e'|a]]; simpl; by intros [= ->]. Qed.

Lemma written_bind_nil {A B : Type} (m : M A) (k : A -> M B) :
  written m = [] -> (forall a, written (k a) = []) -> written (m ≫= k) = [].
Proof.
  destruct m as [out [e|a]]; simpl; intros -> Hk; [done|].
  specialize (Hk a). unfold mbind, M_bind, written in *. simpl.
  by destruct (k a) as [out' r]; simpl in *; subst.
Qed.

Lemma init_columns_fold (header : list string) (acc : Report) (key : string) :
  fold_left (fun (report : Report) name =>
               match report !! name with
               | None => <[name := []]> report
               | Some _ => report
               end) header acc !! key
  = match acc !! key with
    | Some column => Some column
    | None => if decide (key ∈ header) then Some [] else None
    end.
Proof.
  revert acc. induction header as [|name header IH]; intros acc; simpl.
  { destruct (acc !! key); [done|].
    destruct (decide (key ∈ [])) as [Hin|]; [by apply elem_of_nil in Hin|done]. }
  rewrite IH. destruct (acc !! name) as [column|] eqn:Hname.
  - destruct (acc !! key) eqn:Hkey; [done|].
    assert (key ≠ name) by congruence.
    destruct (decide (key ∈ header)) as [Hin|Hin];
      [by rewrite decide_True by (by right)|].
    rewrite decide_False; [done|]. by intros [?|?]%elem_of_cons.
  - destruct (decide (key = name)) as [->|Hne].
    + rewrite lookup_insert_eq, Hname. by rewrite decide_True by set_solver.
    + rewrite lookup_insert_ne by done. destruct (acc !! key); [done|].
      destruct (decide (key ∈ header)) as [Hin|Hin];
        [by rewrite decide_True by (by right)|].
      rewrite decide_False; [done|]. by intros [?|?]%elem_of_cons.
Qed.

Lemma init_columns_lookup (header : list string) (key : string) :
  init_columns header !! key = if decide (key ∈ header) then Some [] else None.
Proof. unfold init_columns. by rewrite init_columns_fold, lookup_empty. Qed.

Lemma zip_keys {A B : Type} (xs : list A) (ys : list B) (x : A) :
  x ∈ (Py.zip xs ys).*1 -> x ∈ xs.
Proof.
  revert ys. induction xs as [|x' xs IH]; intros [|y ys]; simpl;
    try (by intros ?%elem_of_nil).
  intros [->|Hin]%elem_of_cons; [left|right; by eapply IH].
Qed.

Lemma dict_fold_keys {V : Type} (pairs : list (string * V)) (acc : gmap string V)
    (key : string) :
  is_Some (fold_left (fun m p => <[p.1 := p.2]> m) pairs acc !! key) ->
  is_Some (acc !! key) \/ key ∈ pairs.*1.
Proof.
  revert acc. induction pairs as [|[k v] pairs IH]; intros acc; simpl;
    [by left|].
  intros [Hacc|Hin]%IH.
  - destruct (decide (k = key)) as [->|Hne]; [right; left|].
    left. by rewrite lookup_insert_ne in Hacc.
  - right. by right.
Qed.

Lemma dict_keys {V : Type} (pairs : list (string * V)) (key : string) :
  is_Some (Py.dict pairs !! key) -> key ∈ pairs.*1.
Proof.
  intros [Hempty|Hin]%dict_fold_keys; [|done].
  rewrite lookup_empty in Hempty. by destruct Hempty.
Qed.

Section AnyHeader.

Variable float_str : float -> string.
Variable self : FlockingReport.

Lemma append_row_keeps_columns (report : Report) (r : FlatRecord) :
  (forall key, key ∈ header self -> is_Some (report !! key)) ->
  exists report' : Report,
    append_items (Py.iteritems (Py.dict (Py.zip (header self) (tuple_values r))))
      report = inr report' /\
    forall key, is_Some (report' !! key) <-> is_Some (report !! key).
Proof.
  intros Hcols.
  destruct (append_items_lookup
              (Py.iteritems (Py.dict (Py.zip (header self) (tuple_values r))))
              report) as (report' & Hrun & Hlook).
  - apply NoDup_fst_map_to_list.
  - intros key [[key' item] [-> Hin]]%list_elem_of_fmap.
    apply elem_of_map_to_list in Hin. simpl.
    apply Hcols, (zip_keys _ (tuple_values r)), dict_keys. by exists item.
  - exists report'. split; [exact Hrun|].
    intros key. rewrite Hlook. apply fmap_is_Some.
Qed.

Lemma add_row_keeps_columns (report : Report) (r : FlatRecord) :
  verbose self = false \/ keys_ascii r = true ->
  (forall key, key ∈ header self -> is_Some (report !! key)) ->
  exists report' : Report,
    outcome (add_row float_str self report r) = inr report' /\
    forall key, is_Some (report' !! key) <-> is_Some (report !! key).
Proof.
  intros Hprint Hcols.
  destruct (append_row_keeps_columns report r Hcols) as (report' & Hrun & Hdom).
  exists report'. split; [|exact Hdom].
  rewrite add_row_eval, Hrun. destruct Hprint as [->|Hkeys]; [done|].
  rewrite (format_row_ascii float_str r Hkeys). by destruct (verbose self).
Qed.

Lemma add_rows_keeps_columns (report : Report) (rows : list FlatRecord) :
  verbose self = false \/ all_ascii rows = true ->
  (forall key, key ∈ header self -> is_Some (report !! key)) ->
  exists report' : Report,
    outcome (add_rows float_str self report rows) = inr report' /\
    forall key, is_Some (report' !! key) <-> is_Some (report !! key).
Proof.
  revert report. induction rows as [|r rows IH]; intros report Hprint Hcols.
  { exists report. done. }
  destruct (add_row_keeps_columns report r) as (report1 & Hrow & Hdom1);
    [destruct Hprint as [?|[? _]%andb_true_iff]; [by left|by right]|done|].
  destruct (IH report1) as (report' & Hrows & Hdom).
  { destruct Hprint as [?|[_ ?]%andb_true_iff]; [by left|by right]. }
  { intros key Hkey. by apply Hdom1, Hcols. }
  exists report'. split.
  - cbn [add_rows]. by rewrite (outcome_bind_inr _ _ report1 Hrow).
  - intros key. by rewrite Hdom.
Qed.

(** A verbose report stops at the first row it cannot format. *)
Lemma add_rows_stops (report : Report) (rows : list FlatRecord) (r : FlatRecord) :
  verbose self = true -> first_unprintable rows = Some r ->
  (forall key, key ∈ header self -> is_Some (report !! key)) ->
  exists text,
    format_row float_str r = inl (Py.UnicodeEncodeError text) /\
    outcome (add_rows float_str self report rows)
    = inl (Py.UnicodeEncodeError text).
Proof.
  intros Hloud. revert report.
  induction rows as [|r' rows IH]; intros report Hfirst Hcols; [done|].
  unfold first_unprintable in Hfirst. simpl in Hfirst.
  destruct (keys_ascii r') eqn:Hkeys; simpl in Hfirst.
  - destruct (add_row_keeps_columns report r') as (report1 & Hrow & Hdom1);
      [by right|done|].
    destruct (IH report1 Hfirst) as (text & Hfmt & Hrun).
    { intros key Hkey. by apply Hdom1, Hcols. }
    exists text. split; [done|].
    cbn [add_rows]. by rewrite (outcome_bind_inr _ _ report1 Hrow).
  - injection Hfirst as <-.
    destruct (add_row_unprintable float_str self report r' Hloud Hkeys)
      as (text & Hrun & Hfmt).
    exists text. split; [done|]. cbn [add_rows].
    apply outcome_bind_inl. by rewrite Hrun.
Qed.

Lemma init_columns_present (key : string) :
  key ∈ header self -> is_Some (init_columns (header self) !! key).
Proof. intros Hkey. rewrite init_columns_lookup, decide_True by done. eauto. Qed.

(** X13: whatever the header, the loop over the rows raises no [KeyError].
    A quiet report, and a verbose one whose rows can all be formatted, reads
    every row and ends with exactly the columns the header names; a verbose
    report with a row that cannot be formatted raises the
    [UnicodeEncodeError] of the first such row. *)
Theorem row_loop_outcome (rows : list FlatRecord) :
  match (if verbose self then first_unprintable rows else None) with
  | None =>
      exists report : Report,
        outcome (add_rows float_str self (init_columns (header self)) rows)
          = inr report /\
        forall key, is_Some (report !! key) <-> key ∈ header self
  | Some r =>
      exists text,
        format_row float_str r = inl (Py.UnicodeEncodeError text) /\
        outcome (add_rows float_str self (init_columns (header self)) rows)
          = inl (Py.UnicodeEncodeError text)
  end.
Proof.
  destruct (verbose self) eqn:Hverbose;
    [destruct (first_unprintable rows) as [r|] eqn:Hfirst|].
  - by apply add_rows_stops, init_columns_present.
  - destruct (add_rows_keeps_columns (init_columns (header self)) rows)
      as (report & Hrows & Hdom);
      [right; by apply first_unprintable_none|apply init_columns_present|].
    exists report. split; [done|]. intros key.
    rewrite Hdom, init_columns_lookup. case_decide; [by eauto|].
    split; [by intros [? ?]|done].
  - destruct (add_rows_keeps_columns (init_columns (header self)) rows)
      as (report & Hrows & Hdom); [by left|apply init_columns_present|].
    exists report. split; [done|]. intros key.
    rewrite Hdom, init_columns_lookup. case_decide; [by eauto|].
    split; [by intros [? ?]|done].
Qed.

(** X14: the total is read from the column named "Wall Hours": when the
    header does not name it, [format_report] returns no report.  It raises
    [KeyError] for that name once the rows are read, unless the report is
    verbose and a row cannot be formatted, in which case the
    [UnicodeEncodeError] of the first such row is raised. *)
Theorem format_report_without_wall_hours (rows : list FlatRecord) :
  "Wall Hours" ∉ header self ->
  match (if verbose self then first_unprintable rows else None) with
  | None =>
      outcome (format_report_from float_str self rows)
      = inl (Py.KeyError "Wall Hours")
  | Some r =>
      exists text,
        format_row float_str r = inl (Py.UnicodeEncodeError text) /\
        outcome (format_report_from float_str self rows)
        = inl (Py.UnicodeEncodeError text)
  end.
Proof.
  intros Hmissing.
  assert (forall report : Report,
            outcome (add_rows float_str self (init_columns (header self)) rows)
              = inr report ->
            (forall key, is_Some (report !! key)
                         <-> is_Some (init_columns (header self) !! key)) ->
            outcome (format_report_from float_str self rows)
            = inl (Py.KeyError "Wall Hours")) as Hkey.
  { intros report Hrows Hdom. unfold format_report_from.
    rewrite (outcome_bind_inr _ _ report Hrows).
    apply outcome_bind_inl. unfold getitem. simpl.
    destruct (report !! "Wall Hours") as [column|] eqn:Hcol; [|done].
    exfalso. apply Hmissing.
    assert (is_Some (init_columns (header self) !! "Wall Hours")) as Hinit.
    { apply Hdom. by exists column. }
    rewrite init_columns_lookup in Hinit. case_decide; [done|].
    by destruct Hinit. }
  destruct (verbose self) eqn:Hverbose;
    [destruct (first_unprintable rows) as [r|] eqn:Hfirst|].
  - destruct (add_rows_stops (init_columns (header self)) rows r Hverbose Hfirst)
      as (text & Hfmt & Hrun); [apply init_columns_present|].
    exists text. split; [done|]. unfold format_report_from.
    by apply outcome_bind_inl.
  - destruct (add_rows_keeps_columns (init_columns (header self)) rows)
      as (report & Hrows & Hdom);
      [right; by apply first_unprintable_none|apply init_columns_present|].
    by apply (Hkey report).
  - destruct (add_rows_keeps_columns (init_columns (header self)) rows)
      as (report & Hrows & Hdom); [by left|apply init_columns_present|].
    by apply (Hkey report).
Qed.

Lemma add_rows_quiet (report : Report) (rows : list FlatRecord) :
  verbose self = false ->
  written (add_rows float_str self report rows) = [].
Proof.
  intros Hquiet. revert report.
  induction rows as [|r rows IH]; intros report; [done|].
  cbn [add_rows]. apply written_bind_nil; [|done].
  unfold add_row. rewrite Hquiet. by apply written_bind_nil.
Qed.

(** X5: a report that is not verbose prints nothing, for any header and
    any rows, also when it raises. *)
Theorem quiet_report_prints_nothing (rows : list FlatRecord) :
  verbose self = false ->
  written (format_report_from float_str self rows) = [].
Proof.
  intros Hquiet. unfold format_report_from.
  apply written_bind_nil; [by apply add_rows_quiet|]. intros report.
  apply written_bind_nil; [done|]. intros column.
  apply written_bind_nil; [done|]. intros tot.
  apply written_bind_nil; [done|]. intros report'.
  rewrite Hquiet. by apply written_bind_nil.
Qed.

End AnyHeader.

(** ** The report read by rows *)

Lemma tuple_values_lookup (r : FlatRecord) (k : nat) :
  (k < 5)%nat -> is_Some (tuple_values r !! k).
Proof.
  destruct r as [[[[site vo] probe] project] hours]. intros Hk.
  do 5 (destruct k as [|k]; [by eexists|]). lia.
Qed.

Lemma cells_lookup (k i : nat) (rows : list FlatRecord) (r : FlatRecord) :
  (k < 5)%nat -> rows !! i = Some r ->
  cells k rows !! i = tuple_values r !! k.
Proof.
  intros Hk. revert i. induction rows as [|r' rows IH]; intros i Hr; [done|].
  rewrite cells_cons.
  destruct (tuple_values_lookup r' k Hk) as [v Hv]. rewrite Hv. simpl.
  destruct i as [|i]; simpl in *; [by injection Hr as ->|by apply IH].
Qed.

Section Rows.

Variable float_str : float -> string.
Variable config : string -> string -> Py.exn + string.
Variables client indexpattern start end_ : string.
Variables verbose is_test no_email : bool.

Local Abbreviation self :=
  (FlockingReport_init config client indexpattern start end_
     verbose is_test no_email).

(** X6: read by rows across the header, the report gives back the rows it
    was built from, each with its five values in the order of the tuple,
    followed by the row of totals; and it has no further row.  This holds
    for a quiet report, and for a verbose one when the lines of the rows can
    be formatted (their keys are ASCII). *)
Theorem report_rows_are_the_rows_read (rows : list FlatRecord) :
  verbose = false \/ all_ascii rows = true ->
  exists report : Report,
    outcome (format_report_from float_str self rows) = inr report /\
    report_rows report (header self) (S (length rows))
    = Some (map tuple_values rows ++ [total_row (hours_total rows)]) /\
    report_row report (header self) (S (length rows)) = None.
Proof.
  intros Hprint.
  rewrite (format_report_table float_str self eq_refl rows Hprint).
  clear Hprint.
  eexists. split; [reflexivity|].
  change (header self)
    with ["VOName"; "SiteName"; "ProbeName"; "ProjectName"; "Wall Hours"].
  split; [|apply table_last_row; apply cells_length; lia].
  unfold report_rows. apply mapM_Some, Forall2_same_length_lookup. split.
  { rewrite length_seq, length_app, length_map. simpl. lia. }
  intros i x y [-> Hi]%lookup_seq Hy. rewrite table_row.
  change (0 + i)%nat with i.
  destruct (decide (i < length rows)%nat) as [Hlt|Hge].
  - rewrite lookup_app_l in Hy by (rewrite length_map; lia).
    rewrite list_lookup_fmap in Hy.
    destruct (rows !! i) as [r|] eqn:Hr; [|done]. injection Hy as <-.
    rewrite !lookup_app_l by (rewrite cells_length; lia).
    rewrite !(cells_lookup _ i rows r) by (done || lia).
    by destruct r as [[[[site vo] probe] project] hours].
  - assert (i = length rows) as -> by lia.
    rewrite list_lookup_middle in Hy by (by rewrite length_map).
    injection Hy as <-.
    rewrite !list_lookup_middle by (rewrite cells_length; lia).
    reflexivity.
Qed.

End Rows.

(** ** The probe list, cut at a comma *)

(** X7: splitting distributes over a comma: the probes of [a,b] are the
    probes of [a] followed by the probes of [b], for any strings [a] and [b]
    (with or without commas of their own). *)
Theorem split_comma_at_comma (a b : string) :
  Py.split_comma (a ++ String "," b)%string
  = Py.split_comma a ++ Py.split_comma b.
Proof.
  induction a as [|c a IH]; [done|].
  simpl. rewrite IH. destruct (Ascii.eqb c ","); [done|].
  by destruct (split_comma_cons a) as (piece & pieces & ->).
Qed.

(** ** The outcome of [query] *)

Section QueryOutcome.

Variable dateparse_to_iso : string -> Py.exn + string.
Variable self : FlockingReport.

Local Abbreviation probe_option :=
  (config self (Py.lower (report_type self) ++ "_report")%string
     "flocking_probe_list").

Lemma query_cases :
  query dateparse_to_iso self
  = match dateparse_to_iso (start_time self) with
    | inl e => ([], inl e)
    | inr starttimeq =>
        match dateparse_to_iso (end_time self) with
        | inl e => ([], inl e)
        | inr endtimeq =>
            (if verbose self then [LogInfo (indexpattern self)] else [],
             match probe_option with
             | inl e => inl e
             | inr probes =>
                 inr (flocking_request (client self) (indexpattern self)
                        starttimeq endtimeq (Py.split_comma probes))
             end)
        end
    end.
Proof.
  unfold query.
  destruct (dateparse_to_iso (start_time self)) as [e|starttimeq]; [done|].
  destruct (dateparse_to_iso (end_time self)) as [e|endtimeq]; [done|].
  destruct probe_option as [e|probes]; by destruct (verbose self).
Qed.

(** X8: [query] returns a request exactly when both times parse and the
    probe list is configured, and the request is then the one of the two
    parsed times and of the pieces of the configured string. *)
Theorem query_returns_iff (s : ES.Search) :
  outcome (query dateparse_to_iso self) = inr s <->
  exists starttimeq endtimeq probes,
    dateparse_to_iso (start_time self) = inr starttimeq /\
    dateparse_to_iso (end_time self) = inr endtimeq /\
    probe_option = inr probes /\
    s = flocking_request (client self) (indexpattern self)
          starttimeq endtimeq (Py.split_comma probes).
Proof.
  rewrite query_cases. split.
  - destruct (dateparse_to_iso (start_time self)) as [e|starttimeq]; [done|].
    destruct (dateparse_to_iso (end_time self)) as [e|endtimeq]; [done|].
    destruct probe_option as [e|probes]; [done|].
    intros [= <-]. by exists starttimeq, endtimeq, probes.
  - intros (starttimeq & endtimeq & probes & -> & -> & -> & ->). done.
Qed.

(** X9: [query] raises nothing of its own: an exception it raises is the
    first failure among parsing the start time, parsing the end time and
    reading the probe list, in this order. *)
Theorem query_raises_first_failure (e : Py.exn) :
  outcome (query dateparse_to_iso self) = inl e <->
  dateparse_to_iso (start_time self) = inl e \/
  (exists starttimeq,
     dateparse_to_iso (start_time self) = inr starttimeq /\
     dateparse_to_iso (end_time self) = inl e) \/
  (exists starttimeq endtimeq,
     dateparse_to_iso (start_time self) = inr starttimeq /\
     dateparse_to_iso (end_time self) = inr endtimeq /\
     probe_option = inl e).
Proof.
  rewrite query_cases.
  destruct (dateparse_to_iso (start_time self)) as [e1|starttimeq].
  { split; [intros [= ->]; by left|].
    intros [[= ->]|[(? & [=] & _)|(? & ? & [=] & _)]]. done. }
  destruct (dateparse_to_iso (end_time self)) as [e2|endtimeq].
  { split; [intros [= ->]; right; left; by eexists|].
    intros [[=]|[(? & _ & [= ->])|(? & ? & _ & [=] & _)]]. done. }
  destruct probe_option as [e3|probes].
  { split; [intros [= ->]; right; right; by do 2 eexists|].
    intros [[=]|[(? & _ & [=])|(? & ? & _ & _ & [= ->])]]. done. }
  split; [done|].
  intros [[=]|[(? & _ & [=])|(? & ? & _ & _ & [=])]].
Qed.

(** X10: the index pattern is logged when the report is verbose and both
    times have parsed, and nothing else is ever written; the log is written
    before the probe list is read, so it is there even when reading it
    fails. *)
Theorem query_logs_index_pattern :
  written (query dateparse_to_iso self)
  = match dateparse_to_iso (start_time self),
          dateparse_to_iso (end_time self) with
    | inr _, inr _ =>
        if verbose self then [LogInfo (indexpattern self)] else []
    | _, _ => []
    end.
Proof.
  rewrite query_cases.
  destruct (dateparse_to_iso (start_time self)) as [e|starttimeq]; [done|].
  by destruct (dateparse_to_iso (end_time self)) as [e|endtimeq].
Qed.

(** X11: the request never has an empty list of probes: a configured string
    without any probe name, even the empty string, restricts the request to
    the probe named by that string. *)
Theorem query_probes_never_empty (s : ES.Search) :
  outcome (query dateparse_to_iso self) = inr s ->
  exists probe probes, probes_of s = Some (probe :: probes).
Proof.
  rewrite query_cases.
  destruct (dateparse_to_iso (start_time self)) as [e|starttimeq]; [done|].
  destruct (dateparse_to_iso (end_time self)) as [e|endtimeq]; [done|].
  destruct probe_option as [e|probes]; [done|]. intros [= <-].
  destruct (split_comma_cons probes) as (piece & pieces & Hsplit).
  exists piece, pieces. unfold probes_of. simpl. by rewrite Hsplit.
Qed.

End QueryOutcome.

(** X12: the request does not depend on the flags of the report (verbose,
    test run, no email) nor on its header: two reports with the same client,
    index pattern, times, report type and configuration build the same
    request or raise the same exception. *)
Theorem query_ignores_flags (dateparse_to_iso : string -> Py.exn + string)
    (self1 self2 : FlockingReport) :
  config self1 = config self2 ->
  client self1 = client self2 ->
  indexpattern self1 = indexpattern self2 ->
  report_type self1 = report_type self2 ->
  start_time self1 = start_time self2 ->
  end_time self1 = end_time self2 ->
  outcome (query dateparse_to_iso self1) = outcome (query dateparse_to_iso self2).
Proof.
  intros Hconfig Hclient Hindex Htype Hstart Hend.
  rewrite !query_cases, Hconfig, Hclient, Hindex, Htype, Hstart, Hend.
  destruct (dateparse_to_iso (start_time self2)) as [e|starttimeq]; [done|].
  by destruct (dateparse_to_iso (end_time self2)) as [e|endtimeq].
Qed.

(** ** The further properties on concrete reports *)

(** A report object whose header was cut down to two columns. *)
Lemma format_report_without_wall_hours_witness :
  let self :=
    {| config := fun _ _ => inr "probe1"; client := "localhost:9200";
       indexpattern := "gracc.osg.summary"; report_type := "Flocking";
       start_time := "2018-01-01"; end_time := "2018-02-01";
       verbose := false; no_email := false; is_test := false;
       header := ["VOName"; "SiteName"] |} in
  ("Wall Hours" ∉ header self) /\
  outcome (format_report_from (fun _ => "10.0") self
             [("A", "VO1", "P1", "Proj1", 10%float)])
  = inl (Py.KeyError "Wall Hours").
Proof.
  intros self.
  assert ("Wall Hours" ∉ header self) as Hmissing.
  { simpl. intros [[=]|[[=]|Hin%elem_of_nil]%elem_of_cons]%elem_of_cons. done. }
  split; [exact Hmissing|].
  exact (format_report_without_wall_hours (fun _ => "10.0") self
           [("A", "VO1", "P1", "Proj1", 10%float)] Hmissing).
Defined.

(** A quiet report over two rows. *)
Lemma quiet_report_prints_nothing_witness :
  let self :=
    FlockingReport_init (fun _ _ => inr "probe1") "localhost:9200"
      "gracc.osg.summary" "2018-01-01" "2018-02-01" false false false in
  verbose self = false /\
  written (format_report_from (fun _ => "10.0") self
             [("A", "VO1", "P1", "Proj1", 10%float);
              ("A", "VO1", "P1", "Proj2", 5%float)]) = [].
Proof.
  intros self. split; [reflexivity|].
  exact (quiet_report_prints_nothing (fun _ => "10.0") self
           [("A", "VO1", "P1", "Proj1", 10%float);
            ("A", "VO1", "P1", "Proj2", 5%float)] eq_refl).
Defined.

(** A report configured with the empty string as its probe list. *)
Lemma query_probes_never_empty_witness :
  let self :=
    FlockingReport_init (fun _ _ => inr "") "localhost:9200"
      "gracc.osg.summary" "2018-01-01" "2018-02-01" false false false in
  outcome (query inr self)
  = inr (flocking_request "localhost:9200" "gracc.osg.summary"
           "2018-01-01" "2018-02-01" [""]) /\
  exists probe probes,
    probes_of (flocking_request "localhost:9200" "gracc.osg.summary"
                 "2018-01-01" "2018-02-01" [""]) = Some (probe :: probes).
Proof.
  intros self. split; [reflexivity|].
  exact (query_probes_never_empty inr self
           (flocking_request "localhost:9200" "gracc.osg.summary"
              "2018-01-01" "2018-02-01" [""]) eq_refl).
Defined.

(** A verbose test run and a quiet production run of the same report. *)
Lemma query_ignores_flags_witness :
  let self1 :=
    FlockingReport_init (fun _ _ => inr "probe1,probe2") "localhost:9200"
      "gracc.osg.summary" "2018-01-01" "2018-02-01" true true true in
  let self2 :=
    FlockingReport_init (fun _ _ => inr "probe1,probe2") "localhost:9200"
      "gracc.osg.summary" "2018-01-01" "2018-02-01" false false false in
  (verbose self1 ≠ verbose self2) /\
  outcome (query inr self1) = outcome (query inr self2).
Proof.
  intros self1 self2. split; [discriminate|].
  exact (query_ignores_flags inr self1 self2
           eq_refl eq_refl eq_refl eq_refl eq_refl eq_refl).
Defined.

(** ** The assembled report of a verbose run over two printable rows *)

(** The second row lands under the first, column by column. *)
Lemma assembler_appends_by_position_witness :
  let self :=
    FlockingReport_init (fun _ _ => inr "probe1") "localhost:9200"
      "gracc.osg.summary" "2018-01-01" "2018-02-01" true false false in
  (true = false \/
   all_ascii [("A", "VO1", "P1", "Proj2", 5%float);
              ("A", "VO1", "P1", "Proj1", 10%float)] = true) /\
  exists report' : Report,
    report' !! "VOName" = Some [Py.Str "A"; Py.Str "A"] /\
    report' !! "SiteName" = Some [Py.Str "VO1"; Py.Str "VO1"] /\
    report' !! "ProjectName" = Some [Py.Str "Proj1"; Py.Str "Proj2"] /\
    report' !! "Wall Hours" = Some [Py.Float 10; Py.Float 5].
Proof.
  intros self.
  destruct (assembler_appends_by_position (fun _ => "10.0")
              (fun _ _ => inr "probe1") "localhost:9200" "gracc.osg.summary"
              "2018-01-01" "2018-02-01" true false false
              [("A", "VO1", "P1", "Proj1", 10%float)] "A" "VO1" "P1" "Proj2"
              5%float (or_intror eq_refl))
    as (_ & report & report' & _ & _ & _ & _ & Hvo & Hsite & _ & Hproject & Hhours).
  split; [by right|].
  exists report'. split; [exact Hvo|]. split; [exact Hsite|].
  split; [exact Hproject|exact Hhours].
Defined.

(** The total row of the two rows: 10.0 + 5.0. *)
Lemma total_row_is_sum_and_last_witness :
  let self :=
    FlockingReport_init (fun _ _ => inr "probe1") "localhost:9200"
      "gracc.osg.summary" "2018-01-01" "2018-02-01" true false false in
  let rows := [("A", "VO1", "P1", "Proj1", 10%float);
               ("A", "VO1", "P1", "Proj2", 5%float)] in
  (true = false \/ all_ascii rows = true) /\
  exists report : Report,
    outcome (format_report_from (fun _ => "10.0") self rows) = inr report /\
    report_row report (header self) 2
    = Some [Py.Str "Total"; Py.Str ""; Py.Str ""; Py.Str ""; Py.Float 15].
Proof.
  intros self rows.
  destruct (total_row_is_sum_and_last (fun _ => "10.0")
              (fun _ _ => inr "probe1") "localhost:9200" "gracc.osg.summary"
              "2018-01-01" "2018-02-01" true false false rows
              (or_intror eq_refl))
    as (before & report & column & tot & _ & _ & _ & _ & Htot & Hrun & _ & _
        & _ & _ & _ & Hlast & _).
  split; [by right|].
  exists report. split; [exact Hrun|]. rewrite Htot in Hlast. exact Hlast.
Defined.

(** The five columns of the two rows have three cells each. *)
Lemma columns_have_equal_length_witness :
  let self :=
    FlockingReport_init (fun _ _ => inr "probe1") "localhost:9200"
      "gracc.osg.summary" "2018-01-01" "2018-02-01" true false false in
  let rows := [("A", "VO1", "P1", "Proj1", 10%float);
               ("A", "VO1", "P1", "Proj2", 5%float)] in
  (true = false \/
   (all_ascii rows = true /\ all_ascii (generate end_to_end_tree) = true)) /\
  exists report : Report,
    outcome (format_report_from (fun _ => "10.0") self rows) = inr report /\
    forall col column, report !! col = Some column -> length column = 3%nat.
Proof.
  intros self rows.
  destruct (columns_have_equal_length (fun _ => "10.0")
              (fun _ _ => inr "probe1") "localhost:9200" "gracc.osg.summary"
              "2018-01-01" "2018-02-01" true false false rows end_to_end_tree
              (or_intror (conj eq_refl eq_refl)))
    as (report & report' & Hrun & _ & Hlen & _).
  split; [right; by split|].
  exists report. split; [exact Hrun|exact Hlen].
Defined.

(** The report of the two rows, read by rows. *)
Lemma report_rows_are_the_rows_read_witness :
  let self :=
    FlockingReport_init (fun _ _ => inr "probe1") "localhost:9200"
      "gracc.osg.summary" "2018-01-01" "2018-02-01" true false false in
  let rows := [("A", "VO1", "P1", "Proj1", 10%float);
               ("A", "VO1", "P1", "Proj2", 5%float)] in
  (true = false \/ all_ascii rows = true) /\
  exists report : Report,
    outcome (format_report_from (fun _ => "10.0") self rows) = inr report /\
    report_rows report (header self) 3
    = Some [[Py.Str "A"; Py.Str "VO1"; Py.Str "P1"; Py.Str "Proj1"; Py.Float 10];
            [Py.Str "A"; Py.Str "VO1"; Py.Str "P1"; Py.Str "Proj2"; Py.Float 5];
            [Py.Str "Total"; Py.Str ""; Py.Str ""; Py.Str ""; Py.Float 15]].
Proof.
  intros self rows.
  destruct (report_rows_are_the_rows_read (fun _ => "10.0")
              (fun _ _ => inr "probe1") "localhost:9200" "gracc.osg.summary"
              "2018-01-01" "2018-02-01" true false false rows
              (or_intror eq_refl))
    as (report & Hrun & Hrows & _).
  split; [by right|].
  exists report. split; [exact Hrun|exact Hrows].
Defined.
